(** * Role-based access control of the LCA tool's [users] application

    A shallow embedding of [users/models.py], [users/permissions.py],
    [users/decorators.py], and of the parts of [users/serializers.py] and
    [users/views.py] that register users and delete accounts, followed by
    the properties of the access-control contract that hold (or fail) on
    that code.

    Conventions.  Python strings are [string], Python integers are [Z],
    dictionaries are [gmap]s with string keys, tuples and lists of role
    names are [list string].  An expression that may raise evaluates in
    [result]; a view, which also reads and writes the database and the
    [permissions] logger, evaluates in [M]. *)

From Stdlib Require Import ZArith List String Bool Lia.
From stdpp Require Import base decidable option list strings gmap.
Import ListNotations.

Local Open Scope string_scope.
Local Open Scope Z_scope.

(* ===================================================================== *)
(** ** Python values and outcomes *)
(* ===================================================================== *)

Module Py.

(** The exceptions the modelled code can raise. *)
Inductive exn : Type :=
  | AttributeError (type_name attribute : string)
  | KeyError (key : string)
  | ValueError (message : string)
  | Http404
  | ValidationError (errors : list (string * string)).

(** Outcome of evaluating an expression. *)
Inductive result (A : Type) : Type :=
  | Ok (a : A)
  | Raise (e : exn).
Arguments Ok {A} a.
Arguments Raise {A} e.

Definition bind {A B} (r : result A) (k : A -> result B) : result B :=
  match r with
  | Ok a => k a
  | Raise e => Raise e
  end.

(** [d.get(key, default)]: a lookup that never raises. *)
Definition dict_get {V} (d : gmap string V) (key : string) (default : V) : V :=
  match d !! key with
  | Some v => v
  | None => default
  end.

(** [d[key]]: raises [KeyError] on a missing key. *)
Definition dict_getitem {V} (d : gmap string V) (key : string) : result V :=
  match d !! key with
  | Some v => Ok v
  | None => Raise (KeyError key)
  end.

(** [x in xs] over a tuple or list of strings. *)
Definition contains (xs : list string) (x : string) : bool :=
  bool_decide (x ∈ xs).

End Py.
Export Py.

Declare Scope py_scope.
Delimit Scope py_scope with py.
Notation "x <- c1 ;; c2" := (Py.bind c1 (fun x => c2))
  (at level 100, c1 at next level, right associativity) : py_scope.

(* ===================================================================== *)
(** ** users/models.py *)
(* ===================================================================== *)

Module models.

(** [class User(AbstractUser)]: the columns the access-control code
    reads.  [password] holds the stored hash. *)
Record User : Type := mkUser {
    id : Z;
    username : string;
    email : string;
    password : string;
    first_name : string;
    last_name : string;
    role : string
  }.

Definition ROLE_CHOICES : list (string * string) :=
  [ ("engineer", "Engineer");
    ("metallurgist", "Metallurgist");
    ("admin", "Admin") ].

(** The stored values of [ROLE_CHOICES]: the closed role set. *)
Definition ROLES : list string := map fst ROLE_CHOICES.

(** Default of the [role] column. *)
Definition role_default : string := "engineer".

Definition is_engineer (u : User) : bool := bool_decide (role u = "engineer").
Definition is_metallurgist (u : User) : bool := bool_decide (role u = "metallurgist").
Definition is_admin_role (u : User) : bool := bool_decide (role u = "admin").

(** [Model.__eq__]: two saved instances of one model are equal when their
    primary keys are. *)
Definition User_eq (a b : User) : bool := bool_decide (id a = id b).

End models.
Export models.

(* ===================================================================== *)
(** ** Requests and responses *)
(* ===================================================================== *)

(** What [request.user] can hold: [None] (a REST framework configured
    without an anonymous user class), Django's [AnonymousUser], or a
    [User] row.  [is_authenticated] is a constant of the class: [False]
    on [AnonymousUser], [True] on every [User]. *)
Inductive RequestUser : Type :=
  | PyNone
  | AnonymousUser
  | Authenticated (u : User).

(** Truth value of [request.user] in a boolean context. *)
Definition truthy (ru : RequestUser) : bool :=
  match ru with
  | PyNone => false
  | _ => true
  end.

(** [request.user.is_authenticated] *)
Definition is_authenticated (ru : RequestUser) : result bool :=
  match ru with
  | PyNone => Raise (AttributeError "NoneType" "is_authenticated")
  | AnonymousUser => Ok false
  | Authenticated _ => Ok true
  end.

(** [request.user.role] *)
Definition get_role (ru : RequestUser) : result string :=
  match ru with
  | PyNone => Raise (AttributeError "NoneType" "role")
  | AnonymousUser => Raise (AttributeError "AnonymousUser" "role")
  | Authenticated u => Ok (role u)
  end.

Record Request : Type := mkRequest {
    method : string;
    path : string;
    user : RequestUser;
    data : gmap string string
  }.

(** JSON payloads of responses. *)
#[warnings="-register-all"]
Inductive json : Type :=
  | JNull
  | JBool (b : bool)
  | JInt (z : Z)
  | JStr (s : string)
  | JList (items : list json)
  | JDict (entries : list (string * json)).

Definition JRoles (roles : list string) : json := JList (map JStr roles).

(** The responses the code builds: Django's [JsonResponse] and
    [HttpResponseRedirect], the REST framework's [Response]. *)
Inductive HttpResponse : Type :=
  | JsonResponse (payload : list (string * json)) (status : Z)
  | Response (payload : list (string * json)) (status : Z)
  | HttpResponseRedirect (url next : string).

Definition status_code (r : HttpResponse) : Z :=
  match r with
  | JsonResponse _ s => s
  | Response _ s => s
  | HttpResponseRedirect _ _ => 302
  end.

Definition payload_of (r : HttpResponse) : list (string * json) :=
  match r with
  | JsonResponse p _ => p
  | Response p _ => p
  | HttpResponseRedirect _ _ => []
  end.

Definition HTTP_200_OK : Z := 200.
Definition HTTP_201_CREATED : Z := 201.
Definition HTTP_204_NO_CONTENT : Z := 204.
Definition HTTP_400_BAD_REQUEST : Z := 400.
Definition HTTP_401_UNAUTHORIZED : Z := 401.
Definition HTTP_403_FORBIDDEN : Z := 403.

(* ===================================================================== *)
(** ** users/permissions.py *)
(* ===================================================================== *)

Module permissions.

(** [rest_framework.permissions.SAFE_METHODS] *)
Definition SAFE_METHODS : list string := ["GET"; "HEAD"; "OPTIONS"].

(** Attributes a permission class reads off the view with [getattr]:
    [None] when the view does not define the attribute, [Some None] when
    it is defined as Python's [None]. *)
Record ViewAttrs : Type := mkViewAttrs {
    required_roles : option (option (list string));
    minimum_role : option (option string)
  }.

(** [request.user and request.user.is_authenticated], as a truth value. *)
Definition user_and_is_authenticated (request : Request) : result bool :=
  (if truthy (user request) then is_authenticated (user request)
   else Ok false)%py.

(** [request.user and request.user.is_authenticated and
    request.user.role in roles] *)
Definition authenticated_with_role_in (roles : list string) (request : Request)
  : result bool :=
  (auth <- user_and_is_authenticated request ;;
   if auth then (r <- get_role (user request) ;; Ok (contains roles r))
   else Ok false)%py.

Module IsAdminRole.
Definition has_permission (request : Request) (view : ViewAttrs) : result bool :=
  (auth <- user_and_is_authenticated request ;;
   if auth then (r <- get_role (user request) ;; Ok (bool_decide (r = "admin")))
   else Ok false)%py.
End IsAdminRole.

Module IsMetallurgistOrAdmin.
Definition has_permission (request : Request) (view : ViewAttrs) : result bool :=
  authenticated_with_role_in ["metallurgist"; "admin"] request.
End IsMetallurgistOrAdmin.

Module IsEngineerOrAbove.
Definition has_permission (request : Request) (view : ViewAttrs) : result bool :=
  authenticated_with_role_in ["engineer"; "metallurgist"; "admin"] request.
End IsEngineerOrAbove.

Module CanUploadDatasets.
Definition has_permission (request : Request) (view : ViewAttrs) : result bool :=
  if contains SAFE_METHODS (method request)
  then user_and_is_authenticated request
  else authenticated_with_role_in ["metallurgist"; "admin"] request.
End CanUploadDatasets.

Module CanRunLCA.
Definition has_permission (request : Request) (view : ViewAttrs) : result bool :=
  authenticated_with_role_in ["engineer"; "metallurgist"; "admin"] request.
End CanRunLCA.

Module CanManageAIModels.
Definition has_permission (request : Request) (view : ViewAttrs) : result bool :=
  if contains SAFE_METHODS (method request)
  then user_and_is_authenticated request
  else authenticated_with_role_in ["metallurgist"; "admin"] request.
End CanManageAIModels.

Module CanManageUsers.
Definition has_permission (request : Request) (view : ViewAttrs) : result bool :=
  if contains SAFE_METHODS (method request)
  then user_and_is_authenticated request
  else
    (auth <- user_and_is_authenticated request ;;
     if auth then (r <- get_role (user request) ;; Ok (bool_decide (r = "admin")))
     else Ok false)%py.
End CanManageUsers.

Module RoleBasedPermission.
Definition has_permission (request : Request) (view : ViewAttrs) : result bool :=
  (auth <- user_and_is_authenticated request ;;
   if negb auth then Ok false
   else
     match required_roles view with
     | None | Some None | Some (Some []) => Ok true
     | Some (Some roles) => r <- get_role (user request) ;; Ok (contains roles r)
     end)%py.
End RoleBasedPermission.

Definition ROLE_HIERARCHY : gmap string Z :=
  {[ "admin" := 3; "metallurgist" := 2; "engineer" := 1 ]}.

(** [ROLE_HIERARCHY.get(role, 0)] *)
Definition role_level (role : string) : Z := dict_get ROLE_HIERARCHY role 0.

(** The same lookup when the key may be Python's [None], which is not a
    key of the table. *)
Definition role_level_opt (role : option string) : Z :=
  match role with
  | Some r => role_level r
  | None => 0
  end.

Module MinimumRolePermission.
Definition has_permission (request : Request) (view : ViewAttrs) : result bool :=
  (auth <- user_and_is_authenticated request ;;
   if negb auth then Ok false
   else
     let minimum_role := default (Some "engineer") (minimum_role view) in
     r <- get_role (user request) ;;
     let user_role_level := role_level r in
     let required_role_level := role_level_opt minimum_role in
     Ok (user_role_level >=? required_role_level))%py.
End MinimumRolePermission.

End permissions.
Export permissions.

(* ===================================================================== *)
(** ** The database, the logger and the framework *)
(* ===================================================================== *)

(** Column values of the rows that carry an owner.  A foreign key to a
    user is stored as that user's primary key. *)
Inductive Value : Type :=
  | VNull
  | VInt (z : Z)
  | VStr (s : string)
  | VRef (pk : Z).

#[global] Instance Value_eq_dec : EqDecision Value.
Proof. solve_decision. Defined.

(** A row of an owned model (report, dataset, dataset entry): column name
    to value. *)
Abbreviation Resource := (gmap string Value).

Inductive LogLevel : Type := INFO | WARNING.

Record LogRecord : Type := mkLogRecord {
    levelname : LogLevel;
    message : string
  }.

(** The state a view runs against: the [User] table, the table behind an
    owned model's queryset, and the records of the [permissions] logger,
    oldest first. *)
Record World : Type := mkWorld {
    users : list User;
    objects : list Resource;
    permissions_log : list LogRecord
  }.

(** Views: state passing, with exceptions that keep the state reached. *)
Definition M (A : Type) : Type := World -> result A * World.

Definition ret {A} (a : A) : M A := fun w => (Ok a, w).

Definition raise {A} (e : exn) : M A := fun w => (Raise e, w).

Definition lift {A} (r : result A) : M A := fun w => (r, w).

Definition bindM {A B} (m : M A) (k : A -> M B) : M B :=
  fun w =>
    match m w with
    | (Ok a, w') => k a w'
    | (Raise e, w') => (Raise e, w')
    end.

Declare Scope view_scope.
Delimit Scope view_scope with view.
Notation "x <- c1 ;; c2" := (bindM c1 (fun x => c2))
  (at level 100, c1 at next level, right associativity) : view_scope.
Notation "c1 ;;; c2" := (bindM c1 (fun _ => c2))
  (at level 100, right associativity) : view_scope.

Definition get_world : M World := fun w => (Ok w, w).

(** [logging.getLogger('permissions')] *)
Module logger.
Definition emit (lvl : LogLevel) (msg : string) : M unit :=
  fun w => (Ok tt, mkWorld (users w) (objects w)
                     (permissions_log w ++ [mkLogRecord lvl msg])).
Definition info : string -> M unit := emit INFO.
Definition warning : string -> M unit := emit WARNING.
End logger.

(** What the code takes from Django, the REST framework and the project
    settings, none of which is part of the [users] application. *)
Class Framework : Type := {
    (** [settings.LOGIN_URL] *)
    LOGIN_URL : string;
    (** a plain [CharField]: the cleaned value, or [None] when refused *)
    CharField_run : string -> option string;
    (** the [username] column's field: length and character validators *)
    UsernameField_run : string -> option string;
    (** the [email] column's field *)
    EmailField_run : string -> option string;
    (** [validate_password] raised nothing *)
    validate_password : string -> bool;
    (** the hash stored for a password ([None]: an unusable one) *)
    make_password : option string -> string;
    (** [BaseUserManager.normalize_email] *)
    normalize_email : string -> string;
    (** [AbstractUser.normalize_username] *)
    normalize_username : string -> string;
    (** the primary key the database gives the next [User] row *)
    next_user_id : list User -> Z;
    (** the REST framework's answer when a permission class refuses: 401 or
        403, depending on the configured authenticators *)
    permission_denied_response : Request -> HttpResponse;
    (** the REST framework's answer to [OPTIONS] *)
    options_response : Request -> HttpResponse
  }.

(* ===================================================================== *)
(** ** users/decorators.py *)
(* ===================================================================== *)

(** Attribute access on the first positional argument of a wrapper.  The
    wrappers are written against a request; Python looks the attributes up
    on whatever object arrives in that position. *)
Class PyObject (T : Type) : Type := {
    (** [getattr(obj, 'user', None)] *)
    getattr_user : T -> RequestUser;
    (** [obj.path] *)
    attr_path : T -> result string
  }.

#[global] Instance Request_object : PyObject Request := {
    getattr_user request := user request;
    attr_path request := Ok (path request)
  }.

Module decorators.
Section decorators.

Context `{Framework}.
(** The remaining [*args, **kwargs] of a view. *)
Context {Args : Type}.

(** A function-based view: [view_func(request, *args, **kwargs)]. *)
Definition FunctionView : Type := Request -> Args -> M HttpResponse.

(** [django.contrib.auth.decorators.login_required]: the view runs when
    [request.user.is_authenticated]; any other request is answered with
    a redirect to the login page. *)
Definition login_required (view_func : FunctionView) : FunctionView :=
  fun request args =>
    (auth <- lift (is_authenticated (user request)) ;;
     if auth then view_func request args
     else ret (HttpResponseRedirect LOGIN_URL (path request)))%view.

Definition authentication_required_payload : list (string * json) :=
  [("error", JStr "Authentication required")].

Definition insufficient_permissions_payload (roles : list string) (user_role : string)
  : list (string * json) :=
  [("error", JStr "Insufficient permissions");
   ("required_roles", JRoles roles);
   ("user_role", JStr user_role)].

Definition insufficient_role_level_payload (minimum_role user_role : string)
    : list (string * json) :=
  [("error", JStr "Insufficient role level");
   ("minimum_role", JStr minimum_role);
   ("user_role", JStr user_role)].

(** The [_wrapped_view] of [role_required], before [login_required] is
    put around it. *)
Definition role_required_wrapped_view (roles : list string)
    (view_func : FunctionView) : FunctionView :=
  fun request args =>
    (auth <- lift (is_authenticated (user request)) ;;
     if negb auth then ret (JsonResponse authentication_required_payload 401)
     else
       r <- lift (get_role (user request)) ;;
       if negb (contains roles r)
       then ret (JsonResponse (insufficient_permissions_payload roles r) 403)
       else view_func request args)%view.

Definition role_required (roles : list string) (view_func : FunctionView)
  : FunctionView :=
  login_required (role_required_wrapped_view roles view_func).

(** The [_wrapped_view] of [minimum_role_required]. *)
Definition minimum_role_required_wrapped_view (minimum_role : string)
    (view_func : FunctionView) : FunctionView :=
  fun request args =>
    (auth <- lift (is_authenticated (user request)) ;;
     if negb auth then ret (JsonResponse authentication_required_payload 401)
     else
       r <- lift (get_role (user request)) ;;
       let user_level := role_level r in
       let required_level := role_level minimum_role in
       if user_level <? required_level
       then ret (JsonResponse
                   (insufficient_role_level_payload minimum_role r) 403)
       else view_func request args)%view.

Definition minimum_role_required (minimum_role : string) (view_func : FunctionView)
  : FunctionView :=
  login_required (minimum_role_required_wrapped_view minimum_role view_func).

Definition admin_required (view_func : FunctionView) : FunctionView :=
  role_required ["admin"] view_func.

Definition metallurgist_or_admin_required (view_func : FunctionView) : FunctionView :=
  role_required ["metallurgist"; "admin"] view_func.

(** Truth value of a class attribute that is [None] or a list. *)
Definition roles_truthy (roles : option (option (list string))) : option (list string) :=
  match roles with
  | Some (Some (r :: rs)) => Some (r :: rs)
  | _ => None
  end.

(** Truth value of a class attribute that is [None] or a string. *)
Definition role_truthy (role : option (option string)) : option string :=
  match role with
  | Some (Some "") => None
  | Some (Some r) => Some r
  | _ => None
  end.

(** [RoleBasedViewMixin.dispatch], with the next [dispatch] of the
    method resolution order as [super_dispatch]. *)
Definition RoleBasedViewMixin_dispatch (self : ViewAttrs)
    (super_dispatch : FunctionView) : FunctionView :=
  fun request args =>
    (auth <- lift (is_authenticated (user request)) ;;
     if negb auth
     then ret (Response authentication_required_payload HTTP_401_UNAUTHORIZED)
     else
       r <- lift (get_role (user request)) ;;
       (* Check required roles *)
       let rejected :=
         match roles_truthy (required_roles self) with
         | Some roles =>
             if negb (contains roles r)
             then Some (Response (insufficient_permissions_payload roles r)
                          HTTP_403_FORBIDDEN)
             else None
         | None => None
         end in
       match rejected with
       | Some response => ret response
       | None =>
           (* Check minimum role *)
           match role_truthy (minimum_role self) with
           | Some m =>
               if role_level r <? role_level m
               then ret (Response (insufficient_role_level_payload m r)
                           HTTP_403_FORBIDDEN)
               else super_dispatch request args
           | None => super_dispatch request args
           end
       end)%view.

Definition AdminOnlyMixin : ViewAttrs :=
  mkViewAttrs (Some (Some ["admin"])) (Some None).

Definition MetallurgistOrAdminMixin : ViewAttrs :=
  mkViewAttrs (Some (Some ["metallurgist"; "admin"])) (Some None).

Definition AuthenticatedUserMixin : ViewAttrs :=
  mkViewAttrs (Some (Some ["engineer"; "metallurgist"; "admin"])) (Some None).

(** A method of a class-based view:
    [view_func(self, request, *args, **kwargs)]. *)
Definition MethodView (Self : Type) : Type := Self -> Request -> Args -> M HttpResponse.

Definition api_role_required {Self : Type} (roles : list string)
    (view_func : MethodView Self) : MethodView Self :=
  fun self request args =>
    (auth <- lift (is_authenticated (user request)) ;;
     if negb auth
     then ret (Response authentication_required_payload HTTP_401_UNAUTHORIZED)
     else
       r <- lift (get_role (user request)) ;;
       if negb (contains roles r)
       then ret (Response (insufficient_permissions_payload roles r)
                   HTTP_403_FORBIDDEN)
       else view_func self request args)%view.

(** [user_info] of [log_permission_check]. *)
Definition user_info_of (user : RequestUser) : result string :=
  (if truthy user
   then
     auth <- is_authenticated user ;;
     if auth
     then
       match user with
       | Authenticated u => Ok (username u +:+ " (" +:+ role u +:+ ")")
       | _ => Ok "Anonymous"
       end
     else Ok "Anonymous"
   else Ok "Anonymous")%py.

(** [log_permission_check(func)], [func.__name__] being [name].  The
    wrapper is [wrapper(request, *args, **kwargs)]: [request] is whatever
    comes first in the call, of type [T]; the rest of the call is
    [Rest]. *)
Definition log_permission_check {T Rest : Type} `{PyObject T} (name : string)
    (func : T -> Rest -> M HttpResponse) : T -> Rest -> M HttpResponse :=
  fun request rest =>
    (let user := getattr_user request in
     user_info <- lift (user_info_of user) ;;
     request_path <- lift (attr_path request) ;;
     logger.info ("Permission check: " +:+ name +:+ " - User: " +:+ user_info
                  +:+ " - Path: " +:+ request_path) ;;;
     result <- func request rest ;;
     (if bool_decide (status_code result = 403)
      then logger.warning ("Permission denied: " +:+ name +:+ " - User: "
                           +:+ user_info)
      else ret tt) ;;;
     ret result)%view.

End decorators.
End decorators.

(** [OwnershipMixin]: rows are visible to their owner, and to admins. *)
Module OwnershipMixin.

Definition ownership_field : string := "created_by".

(** [queryset.filter] on the owner column: the rows whose foreign key
    [field] holds the primary key of [user]. *)
Definition filter_by_owner (field : string) (owner : RequestUser)
    (queryset : list Resource) : result (list Resource) :=
  match owner with
  | Authenticated u => Ok (filter (fun row => row !! field = Some (VRef (id u))) queryset)
  | AnonymousUser => Raise (ValueError "AnonymousUser is not a User instance")
  | PyNone => Ok (filter (fun row => row !! field = Some VNull) queryset)
  end.

(** [get_queryset], [queryset] being [super().get_queryset()]. *)
Definition get_queryset (queryset : list Resource) (request : Request)
  : result (list Resource) :=
  (auth <- is_authenticated (user request) ;;
   if negb auth then Ok []
   else
     (* Admin can see all objects *)
     r <- get_role (user request) ;;
     if bool_decide (r = "admin") then Ok queryset
     else
       (* Users can only see their own objects *)
       filter_by_owner ownership_field (user request) queryset)%py.

(** The column value a keyword argument holding [request.user] is
    stored as: assigning anything but a [User] or [None] to a foreign key
    raises. *)
Definition owner_value (owner : RequestUser) : result Value :=
  match owner with
  | Authenticated u => Ok (VRef (id u))
  | AnonymousUser => Raise (ValueError "AnonymousUser is not a User instance")
  | PyNone => Ok VNull
  end.

(** [serializer.save] with keyword arguments, on a model serializer with
    no instance:
    the keyword arguments override the validated data, then the row is
    inserted and returned. *)
Definition Serializer_save (validated_data kwargs : Resource) : M Resource :=
  fun w =>
    let row := kwargs ∪ validated_data in
    (Ok row, mkWorld (users w) (objects w ++ [row]) (permissions_log w)).

(** [perform_create]: sets the owner when creating new objects. *)
Definition perform_create (validated_data : Resource) (request : Request)
  : M Resource :=
  (owner <- lift (owner_value (user request)) ;;
   Serializer_save validated_data {[ ownership_field := owner ]})%view.

End OwnershipMixin.

(* ===================================================================== *)
(** ** users/serializers.py *)
(* ===================================================================== *)

Module serializers.
Section serializers.

Context `{Framework}.

Definition Errors : Type := list (string * string).

(** What running one serializer field over the submitted data gives;
    of the messages of a refused value the first is kept. *)
Inductive field_result : Type :=
  | Omitted
  | Validated (value : string)
  | Invalid (message : string).

(** A field with [required=True]. *)
Definition run_required (run : string -> option string) (raw : option string)
  : field_result :=
  match raw with
  | None => Invalid "This field is required."
  | Some x =>
      match run x with
      | Some v => Validated v
      | None => Invalid "Enter a valid value."
      end
  end.

(** A field with [required=False]: left out of the validated data when
    the client does not send it. *)
Definition run_optional (run : string -> option string) (raw : option string)
  : field_result :=
  match raw with
  | None => Omitted
  | Some x =>
      match run x with
      | Some v => Validated v
      | None => Invalid "Enter a valid value."
      end
  end.

(** A validator, run on the value of a field that passed so far. *)
Definition validator (accepts : string -> bool) (message : string)
    (fr : field_result) : field_result :=
  match fr with
  | Validated v => if accepts v then Validated v else Invalid message
  | other => other
  end.

(** The [ChoiceField] a model serializer builds for [role]: the column
    has a default, so the field is not required; a submitted value must
    be one of the choices and is kept as it is. *)
Definition role_field (raw : option string) : field_result :=
  match raw with
  | None => Omitted
  | Some x =>
      if contains ROLES x then Validated x
      else Invalid "Not a valid choice."
  end.

(** The [username] field of a model serializer over [User]: the column's
    validators, then its uniqueness. *)
Definition username_field (users : list User) (raw : option string) : field_result :=
  validator
    (fun v => negb (existsb (fun u => String.eqb (username u) v) users))
    "A user with that username already exists."
    (run_required UsernameField_run raw).

(** [to_internal_value]: every field runs, the errors are gathered, and
    the validated data holds the fields that were sent. *)
Fixpoint gather (fields : list (string * field_result))
  : Errors * gmap string string :=
  match fields with
  | [] => ([], ∅)
  | (name, fr) :: rest =>
      let '(errors, attrs) := gather rest in
      match fr with
      | Omitted => (errors, attrs)
      | Validated v => (errors, <[name := v]> attrs)
      | Invalid msg => ((name, msg) :: errors, attrs)
      end
  end.

Definition to_internal_value (fields : list (string * field_result))
  : result (gmap string string) :=
  match gather fields with
  | ([], attrs) => Ok attrs
  | (errors, _) => Raise (ValidationError errors)
  end.

(** [User.objects.create_user] on the validated data as keyword
    arguments: the row is built from
    the keyword arguments, the password is hashed, columns that are not
    given take their defaults, and the row is saved. *)
Definition create_user (validated_data : gmap string string) : M User :=
  (username <- lift (dict_getitem validated_data "username") ;;
   if bool_decide (username = "")
   then raise (ValueError "The given username must be set")
   else
     fun w =>
       let user :=
         mkUser (next_user_id (users w))
                (normalize_username username)
                (from_option normalize_email "" (validated_data !! "email"))
                (make_password (validated_data !! "password"))
                (dict_get validated_data "first_name" "")
                (dict_get validated_data "last_name" "")
                (dict_get validated_data "role" role_default) in
       (Ok user, mkWorld (users w ++ [user]) (objects w) (permissions_log w)))%view.

(** *** RegisterSerializer *)

Definition RegisterSerializer_fields (data : gmap string string) (users : list User)
  : list (string * field_result) :=
  [ ("username", username_field users (data !! "username"));
   ("email", run_optional EmailField_run (data !! "email"));
   ("password",
     validator validate_password "This password is not acceptable."
       (run_required CharField_run (data !! "password")));
   ("password2", run_required CharField_run (data !! "password2"));
   ("role", role_field (data !! "role")) ].

Definition RegisterSerializer_validate (attrs : gmap string string)
  : result (gmap string string) :=
  (password <- dict_getitem attrs "password" ;;
   password2 <- dict_getitem attrs "password2" ;;
   if negb (String.eqb password password2)
   then Raise (ValidationError [("password", "Passwords don't match.")])
   else Ok attrs)%py.

(** [is_valid(raise_exception=True)]: the validated data, or the
    [ValidationError]. *)
Definition RegisterSerializer_run_validation (data : gmap string string)
    (users : list User) : result (gmap string string) :=
  (attrs <- to_internal_value (RegisterSerializer_fields data users) ;;
   RegisterSerializer_validate attrs)%py.

Definition RegisterSerializer_create (validated_data : gmap string string) : M User :=
  (_ <- lift (dict_getitem validated_data "password2") ;;
   create_user (delete "password2" validated_data))%view.

(** [serializer.data]: the fields that are not write-only. *)
Definition RegisterSerializer_data (u : User) : list (string * json) :=
  [ ("username", JStr (username u));
   ("email", JStr (email u));
   ("role", JStr (role u)) ].

(** *** UserRegistrationSerializer *)

(** [validate_email] *)
Definition UserRegistrationSerializer_validate_email (users : list User)
    (fr : field_result) : field_result :=
  validator
    (fun v => negb (existsb (fun u => String.eqb (email u) v) users))
    "User with this email already exists."
    fr.

Definition UserRegistrationSerializer_fields (data : gmap string string)
    (users : list User) : list (string * field_result) :=
  [ ("username", username_field users (data !! "username"));
   ("email",
     UserRegistrationSerializer_validate_email users
       (run_optional EmailField_run (data !! "email")));
   ("password",
     validator (fun v => 8 <=? Z.of_nat (String.length v))
       "Ensure this field has at least 8 characters."
       (validator validate_password "This password is not acceptable."
          (run_required CharField_run (data !! "password"))));
   ("password_confirm", run_required CharField_run (data !! "password_confirm"));
   ("first_name", run_optional CharField_run (data !! "first_name"));
   ("last_name", run_optional CharField_run (data !! "last_name"));
   ("role", role_field (data !! "role")) ].

Definition UserRegistrationSerializer_validate (attrs : gmap string string)
  : result (gmap string string) :=
  (password <- dict_getitem attrs "password" ;;
   password_confirm <- dict_getitem attrs "password_confirm" ;;
   if negb (String.eqb password password_confirm)
   then Raise (ValidationError [("password", "Password fields didn't match.")])
   else Ok attrs)%py.

Definition UserRegistrationSerializer_run_validation (data : gmap string string)
    (users : list User) : result (gmap string string) :=
  (attrs <- to_internal_value (UserRegistrationSerializer_fields data users) ;;
   UserRegistrationSerializer_validate attrs)%py.

Definition UserRegistrationSerializer_create (validated_data : gmap string string)
  : M User :=
  create_user (delete "password_confirm" validated_data).

(** *** UserSerializer and UserProfileSerializer *)

Definition UserSerializer_data (u : User) : list (string * json) :=
  [ ("id", JInt (id u));
   ("username", JStr (username u));
   ("email", JStr (email u));
   ("role", JStr (role u)) ].

(** [get_role_display]: the label of the stored value, or the value
    itself when it is not one of the choices. *)
Definition get_role_display (u : User) : string :=
  match find (fun c => String.eqb (fst c) (role u)) ROLE_CHOICES with
  | Some c => snd c
  | None => role u
  end.

(** [UserProfileSerializer(user).data], on the modelled columns. *)
Definition UserProfileSerializer_data (u : User) : list (string * json) :=
  [ ("id", JInt (id u));
   ("username", JStr (username u));
   ("email", JStr (email u));
   ("first_name", JStr (first_name u));
   ("last_name", JStr (last_name u));
   ("role", JStr (role u));
   ("role_display", JStr (get_role_display u)) ].

End serializers.
End serializers.

(* ===================================================================== *)
(** ** users/views.py *)
(* ===================================================================== *)

(** A class-based view instance: what [setup] stores on [self]. *)
Record ViewInstance : Type := mkViewInstance {
    self_request : Request;
    self_kwargs : gmap string Z
  }.

(** A view instance has neither a [user] nor a [path] attribute. *)
#[global] Instance ViewInstance_object : PyObject ViewInstance := {
    getattr_user _ := PyNone;
    attr_path _ := Raise (AttributeError "UserManagementView" "path")
  }.

(** The keyword arguments the URL pattern captures. *)
Abbreviation Kwargs := (gmap string Z).

Module views.
Section views.

Context `{Framework}.

Definition Handler : Type := Request -> Kwargs -> M HttpResponse.

Definition errors_payload (errors : list (string * string)) : list (string * json) :=
  map (fun e => (fst e, JList [JStr (snd e)])) errors.

(** [APIView.handle_exception]: the exceptions the REST framework turns
    into responses; any other exception propagates. *)
Definition handle_exception (m : M HttpResponse) : M HttpResponse :=
  fun w =>
    match m w with
    | (Raise (ValidationError errors), w') =>
        (Ok (Response (errors_payload errors) HTTP_400_BAD_REQUEST), w')
    | (Raise Http404, w') =>
        (Ok (Response [("detail", JStr "Not found.")] 404), w')
    | other => other
    end.

(** [check_permissions]: the first permission class that does not grant
    stops the request. *)
Fixpoint check_permissions
    (permission_classes : list (Request -> ViewAttrs -> result bool))
    (view : ViewAttrs) (request : Request) : result bool :=
  match permission_classes with
  | [] => Ok true
  | has_permission :: rest =>
      (granted <- has_permission request view ;;
       if granted then check_permissions rest view request else Ok false)%py
  end.

(** [APIView.dispatch]: permissions, then the handler of the request
    method.  [handlers] gives the methods the view class defines. *)
Definition APIView_dispatch
    (permission_classes : list (Request -> ViewAttrs -> result bool))
    (view : ViewAttrs) (handlers : string -> option Handler) : Handler :=
  fun request kwargs =>
    handle_exception
      (granted <- lift (check_permissions permission_classes view request) ;;
       if negb granted then ret (permission_denied_response request)
       else
         match handlers (method request) with
         | Some handler => handler request kwargs
         | None =>
             if bool_decide (method request = "OPTIONS")
             then ret (options_response request)
             else ret (Response [("detail", JStr "Method not allowed.")] 405)
         end)%view.

(** [rest_framework.permissions.AllowAny] *)
Definition AllowAny_has_permission (request : Request) (view : ViewAttrs)
  : result bool := Ok true.

(** [rest_framework.permissions.IsAuthenticated] *)
Definition IsAuthenticated_has_permission (request : Request) (view : ViewAttrs)
  : result bool := user_and_is_authenticated request.

Definition no_view_attrs : ViewAttrs := mkViewAttrs None None.

(** *** RegisterView *)

(** [CreateAPIView.post], which [RegisterView.post] calls: validate,
    save, answer 201 with the serializer's data. *)
Definition RegisterView_post : Handler :=
  fun request kwargs =>
    (w <- get_world ;;
     attrs <- lift (serializers.RegisterSerializer_run_validation
                      (data request) (users w)) ;;
     u <- serializers.RegisterSerializer_create attrs ;;
     ret (Response (serializers.RegisterSerializer_data u) HTTP_201_CREATED))%view.

(** [RegisterView.as_view()], with [permission_classes = [AllowAny]]. *)
Definition RegisterView : Handler :=
  APIView_dispatch [AllowAny_has_permission] no_view_attrs
    (fun m => if bool_decide (m = "POST") then Some RegisterView_post else None).

(** *** register *)

Definition permissions_payload (u : User) : json :=
  JDict [ ("is_admin", JBool (is_admin_role u));
          ("is_metallurgist", JBool (is_metallurgist u));
          ("is_engineer", JBool (is_engineer u));
          ("role", JStr (role u)) ].

(** The body of [register(request)]. *)
Definition register_func : Request -> Kwargs -> M HttpResponse :=
  fun request kwargs =>
    (w <- get_world ;;
     match serializers.UserRegistrationSerializer_run_validation
             (data request) (users w) with
     | Ok attrs =>
         u <- serializers.UserRegistrationSerializer_create attrs ;;
         let user_data :=
           (serializers.UserProfileSerializer_data u
            ++ [("permissions", permissions_payload u)])%list in
         ret (Response [ ("message", JStr "User created successfully");
                         ("user", JDict user_data) ] HTTP_201_CREATED)
     | Raise (ValidationError errors) =>
         ret (Response (errors_payload errors) HTTP_400_BAD_REQUEST)
     | Raise e => raise e
     end)%view.

(** [register] as decorated: [api_view(['POST'])],
    [permission_classes([AllowAny])] and [log_permission_check]. *)
Definition register : Handler :=
  APIView_dispatch [AllowAny_has_permission] no_view_attrs
    (fun m =>
       if bool_decide (m = "POST")
       then Some (decorators.log_permission_check "register" register_func)
       else None).

(** *** UserManagementView *)

(** [get_object] with [lookup_field = 'id'] over [User.objects.all()].
    Neither permission class of the view defines an object-level
    check. *)
Definition get_object (self : ViewInstance) : M User :=
  (pk <- lift (match self_kwargs self !! "id" with
               | Some pk => Ok pk
               | None => Raise (KeyError "id")
               end) ;;
   w <- get_world ;;
   match find (fun u => bool_decide (id u = pk)) (users w) with
   | Some u => ret u
   | None => raise Http404
   end)%view.

(** [obj == request.user] for a [User] row [obj]. *)
Definition equals_request_user (obj : User) (ru : RequestUser) : bool :=
  match ru with
  | Authenticated u => User_eq obj u
  | _ => false
  end.

(** [DestroyModelMixin.destroy], reached as [super().delete]: the row is
    deleted and the answer is 204. *)
Definition destroy (self : ViewInstance) : M HttpResponse :=
  (instance <- get_object self ;;
   fun w =>
     (Ok (Response [] HTTP_204_NO_CONTENT),
      mkWorld (filter (fun u => id u ≠ id instance) (users w))
              (objects w) (permissions_log w)))%view.

(** The body of [UserManagementView.delete(self, request, ...)]. *)
Definition UserManagementView_delete_func
  : ViewInstance -> Request * Kwargs -> M HttpResponse :=
  fun self '(request, kwargs) =>
    (obj <- get_object self ;;
     (* Prevent admin from deleting themselves *)
     if equals_request_user obj (user request)
     then ret (Response [("error", JStr "Cannot delete your own account")]
                 HTTP_400_BAD_REQUEST)
     else destroy self)%view.

(** [UserManagementView.delete] as the class holds it: the body under
    [log_permission_check].  Called as a method, the wrapper receives the
    view instance first and the request second. *)
Definition UserManagementView_delete
  : ViewInstance -> Request * Kwargs -> M HttpResponse :=
  decorators.log_permission_check "delete" UserManagementView_delete_func.

(** [UserManagementView.as_view()] on a request.  The view inherits
    [dispatch] from [AdminOnlyMixin]; its permission classes are
    [IsAuthenticated] and [CanManageUsers].  [inherited] stands for the
    retrieve and update actions of the REST framework that the [get],
    [put] and [patch] methods call under the same logging wrapper. *)
Definition UserManagementView
    (inherited : string -> ViewInstance -> Request * Kwargs -> M HttpResponse)
  : Handler :=
  fun request kwargs =>
    let self := mkViewInstance request kwargs in
    decorators.RoleBasedViewMixin_dispatch decorators.AdminOnlyMixin
      (APIView_dispatch
         [IsAuthenticated_has_permission; CanManageUsers.has_permission]
         decorators.AdminOnlyMixin
         (fun m =>
            if bool_decide (m = "DELETE")
            then Some (fun request kwargs =>
                         UserManagementView_delete self (request, kwargs))
            else
              match find (fun h => String.eqb (fst h) m)
                      [("GET", "get"); ("PUT", "put"); ("PATCH", "patch")] with
              | Some (_, name) =>
                  Some (fun request kwargs =>
                          decorators.log_permission_check name (inherited name)
                            self (request, kwargs))
              | None => None
              end))
      request kwargs.

End views.
End views.

(* ===================================================================== *)
(** ** The role model as the specification words it *)
(* ===================================================================== *)

Module Spec.

(** Outcome of the specified role-level lookup. *)
Inductive level_outcome : Type :=
  | Level (n : Z)
  | UnknownRoleError.

(** [roleLevel]: [engineer=1, metallurgist=2, admin=3], and a failure on
    any other role. *)
Definition roleLevel (role : string) : level_outcome :=
  if bool_decide (role = "engineer") then Level 1
  else if bool_decide (role = "metallurgist") then Level 2
  else if bool_decide (role = "admin") then Level 3
  else UnknownRoleError.

(** [isAtLeast(role, minimum)]: [roleLevel(role) >= roleLevel(minimum)],
    defined when both lookups are. *)
Definition isAtLeast (role minimum : string) : option bool :=
  match roleLevel role, roleLevel minimum with
  | Level a, Level b => Some (a >=? b)
  | _, _ => None
  end.

End Spec.

(* ===================================================================== *)
(** ** Vocabulary of the statements *)
(* ===================================================================== *)

(** The code's lookup, seen as an outcome of the specified lookup:
    [dict.get] with a default always yields a level. *)
Definition lookup_outcome (role : string) : Spec.level_outcome :=
  Spec.Level (role_level role).

(** What the two permission classes share: authenticated principals may
    read; only metallurgists and admins may write. *)
Definition read_any_write_privileged
    (has_permission : Request → ViewAttrs → result bool) : Prop :=
  ∀ (request : Request) (view : ViewAttrs),
    (∃ granted, has_permission request view = Ok granted)
    ∧ (method request ∈ SAFE_METHODS →
       ∀ u, user request = Authenticated u → has_permission request view = Ok true)
    ∧ (method request ∉ SAFE_METHODS →
       (has_permission request view = Ok true
        ↔ ∃ u, user request = Authenticated u
               ∧ (role u = "metallurgist" ∨ role u = "admin"))).

(** The records [log_permission_check] writes for a request. *)
Definition user_info (ru : RequestUser) : string :=
  match ru with
  | Authenticated u => username u +:+ " (" +:+ role u +:+ ")"
  | _ => "Anonymous"
  end.

Definition permission_check_record (name : string) (request : Request) : LogRecord :=
  mkLogRecord INFO
    ("Permission check: " +:+ name +:+ " - User: " +:+ user_info (user request)
     +:+ " - Path: " +:+ path request).

Definition permission_denied_record (name : string) (request : Request) : LogRecord :=
  mkLogRecord WARNING
    ("Permission denied: " +:+ name +:+ " - User: " +:+ user_info (user request)).

(* ===================================================================== *)
(** ** A concrete framework and concrete requests, to run the model on *)
(* ===================================================================== *)

Definition nonblank (s : string) : option string :=
  if bool_decide (s = "") then None else Some s.

Definition plain_framework : Framework := {|
    LOGIN_URL := "/accounts/login/";
    CharField_run := nonblank;
    UsernameField_run := nonblank;
    EmailField_run := nonblank;
    validate_password := fun p => 8 <=? Z.of_nat (String.length p);
    make_password := fun p => "hash:" +:+ default "" p;
    normalize_email := fun e => e;
    normalize_username := fun n => n;
    next_user_id := fun users => 1 + Z.of_nat (length users);
    permission_denied_response :=
      fun _ => Response [("detail", JStr "Permission denied.")] HTTP_403_FORBIDDEN;
    options_response := fun _ => Response [] HTTP_200_OK
  |}.

Definition user_with_role (pk : Z) (name r : string) : User :=
  mkUser pk name "" "" "" "" r.

Definition request_by (m : string) (ru : RequestUser) : Request :=
  mkRequest m "/" ru ∅.

Definition empty_world : World := mkWorld [] [] [].

(** The request with another body. *)
Definition with_data (request : Request) (d : gmap string string) : Request :=
  mkRequest (method request) (path request) (user request) d.

(** A view's outcome is a creation: it answered, with status 201. *)
Definition created (outcome : result HttpResponse * World) : Prop :=
  ∃ response, fst outcome = Ok response ∧ status_code response = HTTP_201_CREATED.

Definition sign_up (name r : string) : gmap string string :=
  {[ "username" := name; "password" := "correct horse";
     "password2" := "correct horse"; "password_confirm" := "correct horse";
     "role" := r ]}.

(* ===================================================================== *)
(** ** Further code of the application *)
(* ===================================================================== *)

(** *** permissions.py: CanViewReports *)

Module CanViewReports.

Definition has_permission (request : Request) (view : ViewAttrs) : result bool :=
  user_and_is_authenticated request.

(** [obj.created_by == request.user] for a row [obj] of an owned model:
    the related user, or [None] for a null key, compared with the
    requester by primary key. *)
Definition created_by_is (obj : Resource) (ru : RequestUser) : result bool :=
  match obj !! "created_by" with
  | Some (VRef pk) =>
      Ok (match ru with
          | Authenticated u => bool_decide (pk = id u)
          | _ => false
          end)
  | Some VNull =>
      Ok (match ru with
          | PyNone => true
          | _ => false
          end)
  | _ => Raise (AttributeError "Model" "created_by")
  end.

Definition has_object_permission (request : Request) (view : ViewAttrs)
    (obj : Resource) : result bool :=
  (* Admin can access all reports *)
  (r <- get_role (user request) ;;
   if bool_decide (r = "admin") then Ok true
   else
     (* Users can only access their own reports *)
     created_by_is obj (user request))%py.

End CanViewReports.

(** *** decorators.py: RoleBasedModelViewSet *)

Module RoleBasedModelViewSet.

Definition role_permissions : gmap string (list string) :=
  {[ "list" := ["engineer"; "metallurgist"; "admin"];
     "retrieve" := ["engineer"; "metallurgist"; "admin"];
     "create" := ["metallurgist"; "admin"];
     "update" := ["metallurgist"; "admin"];
     "partial_update" := ["metallurgist"; "admin"];
     "destroy" := ["admin"] ]}.

(** How [check_permissions] ends when nothing unexpected is raised: it
    returns, or [permission_denied] raises with a message. *)
Inductive check_result : Type :=
  | Granted
  | Denied (message : option string).

(** [self.action or 'list'] *)
Definition action_or_list (action : option string) : string :=
  match action with
  | Some "" | None => "list"
  | Some a => a
  end.

(** [check_permissions], with the permission classes of the view set for
    the inherited check; a class that refuses is reported without a
    message. *)
Definition check_permissions
    (permission_classes : list (Request -> ViewAttrs -> result bool))
    (view : ViewAttrs) (action : option string) (request : Request)
    : result check_result :=
  (granted <- views.check_permissions permission_classes view request ;;
   if negb granted then Ok (Denied None)
   else
     auth <- is_authenticated (user request) ;;
     if negb auth then Ok (Denied (Some "Authentication required"))
     else
       let action := action_or_list action in
       let required_roles := dict_get role_permissions action ["admin"] in
       r <- get_role (user request) ;;
       if negb (contains required_roles r)
       then Ok (Denied (Some ("Role " +:+ r +:+ " not allowed for action "
                              +:+ action)))
       else Ok Granted)%py.

End RoleBasedModelViewSet.

(** *** views.py: test_permissions *)

Module test_permissions_view.
Section test_permissions_view.

Context `{Framework}.

(** The body of [test_permissions(request)]; the permission classes are
    called with [None] for the view. *)
Definition test_permissions_func : Request -> Kwargs -> M HttpResponse :=
  fun request kwargs =>
    (can_manage_users <- lift (CanManageUsers.has_permission request views.no_view_attrs) ;;
     can_upload_datasets <-
       lift (CanUploadDatasets.has_permission request views.no_view_attrs) ;;
     can_manage_ai_models <-
       lift (CanManageAIModels.has_permission request views.no_view_attrs) ;;
     can_view_reports <-
       lift (CanViewReports.has_permission request views.no_view_attrs) ;;
     is_admin <- lift (IsAdminRole.has_permission request views.no_view_attrs) ;;
     is_engineer_or_above <-
       lift (IsEngineerOrAbove.has_permission request views.no_view_attrs) ;;
     let permission_tests :=
       [ ("can_manage_users", JBool can_manage_users);
         ("can_upload_datasets", JBool can_upload_datasets);
         ("can_manage_ai_models", JBool can_manage_ai_models);
         ("can_view_reports", JBool can_view_reports);
         ("is_admin", JBool is_admin);
         ("is_engineer_or_above", JBool is_engineer_or_above) ] in
     match user request with
     | Authenticated u =>
         let r := role u in
         let admin := JBool (bool_decide (r = "admin")) in
         let metallurgist_or_admin := JBool (contains ["metallurgist"; "admin"] r) in
         let any_role := JBool (contains ["engineer"; "metallurgist"; "admin"] r) in
         ret (Response
                [ ("user",
                   JDict [ ("id", JInt (id u));
                           ("username", JStr (username u));
                           ("role", JStr r);
                           ("is_admin_role", JBool (is_admin_role u));
                           ("is_metallurgist", JBool (is_metallurgist u));
                           ("is_engineer", JBool (is_engineer u)) ]);
                  ("permissions", JDict permission_tests);
                  ("capabilities",
                   JDict
                     [ ("admin",
                        JDict [ ("manage_users", admin);
                                ("upload_datasets", admin);
                                ("manage_ai_models", admin);
                                ("view_reports", admin);
                                ("run_lca", admin) ]);
                       ("metallurgist",
                        JDict [ ("manage_users", JBool false);
                                ("upload_datasets", metallurgist_or_admin);
                                ("manage_ai_models", metallurgist_or_admin);
                                ("view_reports", metallurgist_or_admin);
                                ("run_lca", metallurgist_or_admin) ]);
                       ("engineer",
                        JDict [ ("manage_users", JBool false);
                                ("upload_datasets", JBool false);
                                ("manage_ai_models", JBool false);
                                ("view_reports", any_role);
                                ("run_lca", any_role) ]) ]) ]
                HTTP_200_OK)
     | AnonymousUser => raise (AttributeError "AnonymousUser" "role")
     | PyNone => raise (AttributeError "NoneType" "id")
     end)%view.

(** [test_permissions] as decorated: [api_view(['GET'])] and
    [permission_classes([IsAuthenticated])]. *)
Definition test_permissions : views.Handler :=
  views.APIView_dispatch [views.IsAuthenticated_has_permission] views.no_view_attrs
    (fun m => if bool_decide (m = "GET") then Some test_permissions_func else None).

End test_permissions_view.
End test_permissions_view.

(** *** views.py: UserListView *)

Module UserListView.
Section UserListView.

(** [queryset.order_by('-date_joined')]: the order is the database's. *)
Variable order_by_date_joined_desc : list User -> list User.

(** [get_queryset], [queryset] being [User.objects.all()] and [role_param]
    being [self.request.query_params.get('role', None)]. *)
Definition get_queryset (queryset : list User) (role_param : option string)
    : list User :=
  let filtered :=
    match role_param with
    | Some r =>
        if negb (bool_decide (r = ""))
           && contains ["engineer"; "metallurgist"; "admin"] r
        then filter (fun u => role u = r) queryset
        else queryset
    | None => queryset
    end in
  order_by_date_joined_desc filtered.

End UserListView.
End UserListView.

(** *** swagger_decorators.py *)

Module swagger_decorators.
Section swagger_decorators.

(** The documentation objects of [drf_yasg]: responses and parameters. *)
Context {ResponseDoc ParameterDoc : Type}.
Variable jwt_header_param : ParameterDoc.
Variable jwt_unauthorized_response : ResponseDoc.
Variable jwt_forbidden_response : ResponseDoc.

(** The keyword arguments the decorators read and set, each [None] when
    the caller did not pass it.  The others go through untouched. *)
Record SchemaKwargs : Type := mkSchemaKwargs {
  operation_description : option string;
  tags : option (list string);
  responses : option (gmap Z ResponseDoc);
  manual_parameters : option (list ParameterDoc)
}.

Definition default_responses : gmap Z ResponseDoc :=
  {[ 401 := jwt_unauthorized_response; 403 := jwt_forbidden_response ]}.

(** [jwt_required_operation]: the keyword arguments handed on to
    [swagger_auto_schema]. *)
Definition jwt_required_operation (kwargs : SchemaKwargs) : SchemaKwargs :=
  (* responses.update(default_responses) *)
  let responses := default_responses ∪ default ∅ (responses kwargs) in
  (* manual_parameters.append(jwt_header_param) *)
  let manual_parameters :=
    (default [] (manual_parameters kwargs) ++ [jwt_header_param])%list in
  mkSchemaKwargs (operation_description kwargs) (tags kwargs)
    (Some responses) (Some manual_parameters).

Definition admin_only_operation (kwargs : SchemaKwargs) : SchemaKwargs :=
  let description :=
    match operation_description kwargs with
    | None => Some "This operation requires admin role access."
    | given => given
    end in
  let tags := (default [] (tags kwargs) ++ ["Admin Only"])%list in
  jwt_required_operation
    (mkSchemaKwargs description (Some tags) (responses kwargs)
       (manual_parameters kwargs)).

(** [', '.join(roles)] *)
Fixpoint join_comma (roles : list string) : string :=
  match roles with
  | [] => ""
  | [r] => r
  | r :: rest => r +:+ ", " +:+ join_comma rest
  end.

Definition role_based_operation (required_roles : option (list string))
    (kwargs : SchemaKwargs) : SchemaKwargs :=
  match required_roles with
  | Some (r :: rs) =>
      let roles_str := join_comma (r :: rs) in
      let description :=
        match operation_description kwargs with
        | None =>
            Some ("This operation requires one of these roles: " +:+ roles_str)
        | given => given
        end in
      let tags := (default [] (tags kwargs) ++ ["Roles: " +:+ roles_str])%list in
      jwt_required_operation
        (mkSchemaKwargs description (Some tags) (responses kwargs)
           (manual_parameters kwargs))
  | _ => jwt_required_operation kwargs
  end.

End swagger_decorators.
End swagger_decorators.

(* ===================================================================== *)
(** ** Vocabulary of the further statements *)
(* ===================================================================== *)

Ltac run_permission :=
  unfold IsAdminRole.has_permission, IsMetallurgistOrAdmin.has_permission,
    IsEngineerOrAbove.has_permission, CanUploadDatasets.has_permission,
    CanRunLCA.has_permission, CanManageAIModels.has_permission,
    CanManageUsers.has_permission, CanViewReports.has_permission,
    RoleBasedPermission.has_permission, MinimumRolePermission.has_permission,
    authenticated_with_role_in, user_and_is_authenticated.

(** The permission classes of [permissions.py]. *)
Definition permission_classes_of_the_application
  : list (Request → ViewAttrs → result bool) :=
  [ IsAdminRole.has_permission; IsMetallurgistOrAdmin.has_permission;
    IsEngineerOrAbove.has_permission; CanUploadDatasets.has_permission;
    CanRunLCA.has_permission; CanManageAIModels.has_permission;
    CanViewReports.has_permission; CanManageUsers.has_permission;
    RoleBasedPermission.has_permission; MinimumRolePermission.has_permission ].

(** What a registration leaves behind: nothing, or one more user. *)
Definition registered (request : Request) (w : World)
    (outcome : result HttpResponse * World) : Prop :=
  objects outcome.2 = objects w
  ∧ (users outcome.2 = users w
     ∨ ∃ u payload,
         users outcome.2 = (users w ++ [u])%list
         ∧ outcome.1 = Ok (Response payload HTTP_201_CREATED)
         ∧ role u = default "engineer" (data request !! "role")
         ∧ role u ∈ ROLES).

(* ===================================================================== *)
(** * Properties *)
(* ===================================================================== *)

(** ** Evaluation lemmas *)

Lemma contains_spec (xs : list string) (x : string) : contains xs x = true ↔ x ∈ xs.
Proof. unfold contains. apply bool_decide_eq_true. Qed.

Lemma contains_false (xs : list string) (x : string) : contains xs x = false ↔ x ∉ xs.
Proof. unfold contains. apply bool_decide_eq_false. Qed.

Lemma elem_of_ROLES (r : string) :
  r ∈ ROLES ↔ r = "engineer" ∨ r = "metallurgist" ∨ r = "admin".
Proof.
  unfold ROLES, ROLE_CHOICES; simpl.
  rewrite !elem_of_cons, elem_of_nil. tauto.
Qed.

Example role_level_engineer : role_level "engineer" = 1.
Proof. reflexivity. Qed.

Example role_level_metallurgist : role_level "metallurgist" = 2.
Proof. reflexivity. Qed.

Example role_level_admin : role_level "admin" = 3.
Proof. reflexivity. Qed.

Example role_level_guest : role_level "guest" = 0.
Proof. reflexivity. Qed.

(** The table holds exactly the closed role set. *)
Lemma ROLE_HIERARCHY_lookup (r : string) :
  ROLE_HIERARCHY !! r =
    if bool_decide (r = "admin") then Some 3
    else if bool_decide (r = "metallurgist") then Some 2
    else if bool_decide (r = "engineer") then Some 1
    else None.
Proof.
  unfold ROLE_HIERARCHY.
  repeat case_bool_decide; subst; try reflexivity.
  rewrite !lookup_insert_ne by congruence.
  by apply lookup_singleton_ne.
Qed.

Lemma role_level_unknown (r : string) : r ∉ ROLES → role_level r = 0.
Proof.
  intros Hr. unfold role_level, dict_get. rewrite ROLE_HIERARCHY_lookup.
  rewrite elem_of_ROLES in Hr.
  repeat case_bool_decide; subst; tauto.
Qed.

(** On the closed set the table agrees with the specified levels. *)
Lemma role_level_Spec (r : string) :
  r ∈ ROLES → Spec.roleLevel r = Spec.Level (role_level r).
Proof.
  rewrite elem_of_ROLES. intros [-> | [-> | ->]]; reflexivity.
Qed.

(** ** Minimum-role checks *)

Section minimum_role.

Context `{Framework} {Args : Type}.

Lemma has_permission_minimum_role (request : Request) (u : User)
    (rr : option (option (list string))) (m : option string) :
  user request = Authenticated u →
  MinimumRolePermission.has_permission request (mkViewAttrs rr (Some m))
  = Ok (role_level (role u) >=? role_level_opt m).
Proof.
  intros Hu. unfold MinimumRolePermission.has_permission, user_and_is_authenticated.
  rewrite Hu. reflexivity.
Qed.

Lemma minimum_role_required_authenticated (minimum : string)
    (view_func : decorators.FunctionView) (request : Request) (args : Args)
    (u : User) (w : World) :
  user request = Authenticated u →
  decorators.minimum_role_required minimum view_func request args w
  = if role_level (role u) >=? role_level minimum
    then view_func request args w
    else (Ok (JsonResponse
                (decorators.insufficient_role_level_payload minimum (role u))
                403), w).
Proof.
  intros Hu.
  unfold decorators.minimum_role_required, decorators.login_required,
    decorators.minimum_role_required_wrapped_view, bindM, lift, ret.
  rewrite Hu. simpl.
  rewrite Z.geb_leb, Z.ltb_antisym.
  destruct (role_level minimum <=? role_level (role u)); reflexivity.
Qed.

Lemma dispatch_minimum_role (minimum : string)
    (super_dispatch : decorators.FunctionView) (request : Request) (args : Args)
    (u : User) (w : World) :
  user request = Authenticated u → minimum ≠ "" →
  decorators.RoleBasedViewMixin_dispatch (mkViewAttrs (Some None) (Some (Some minimum)))
    super_dispatch request args w
  = if role_level (role u) >=? role_level minimum
    then super_dispatch request args w
    else (Ok (Response
                (decorators.insufficient_role_level_payload minimum (role u))
                HTTP_403_FORBIDDEN), w).
Proof.
  intros Hu Hm.
  unfold decorators.RoleBasedViewMixin_dispatch, bindM, lift, ret.
  rewrite Hu. cbn -[role_level decorators.role_truthy].
  assert (decorators.role_truthy (Some (Some minimum)) = Some minimum) as ->.
  { destruct minimum; [congruence | reflexivity]. }
  rewrite Z.geb_leb, Z.ltb_antisym.
  destruct (role_level minimum <=? role_level (role u)); reflexivity.
Qed.

End minimum_role.

(** C6.  For a principal whose role R and a threshold M are both in the
    closed role set, the minimum-role check (the permission class, the
    decorator and the mixin's dispatch alike) passes exactly when
    roleLevel(R) >= roleLevel(M) under engineer=1, metallurgist=2, admin=3;
    an admin passes every threshold and an engineer passes only the engineer
    threshold. *)
Theorem minimum_role_check_follows_hierarchy
    `{Framework} {Args : Type} (u : User) (M : string) (request : Request)
    (view_func : decorators.FunctionView) (args : Args) (w : World) :
  user request = Authenticated u →
  role u ∈ ROLES →
  M ∈ ROLES →
  ∃ passes : bool,
    Spec.isAtLeast (role u) M = Some passes
    ∧ (∀ rr, MinimumRolePermission.has_permission request
               (mkViewAttrs rr (Some (Some M))) = Ok passes)
    ∧ decorators.minimum_role_required M view_func request args w
      = (if passes then view_func request args w
         else (Ok (JsonResponse
                     (decorators.insufficient_role_level_payload M (role u))
                     403), w))
    ∧ decorators.RoleBasedViewMixin_dispatch
        (mkViewAttrs (Some None) (Some (Some M))) view_func request args w
      = (if passes then view_func request args w
         else (Ok (Response
                     (decorators.insufficient_role_level_payload M (role u))
                     HTTP_403_FORBIDDEN), w))
    ∧ (role u = "admin" → passes = true)
    ∧ (role u = "engineer" → (passes = true ↔ M = "engineer")).
Proof.
  intros Hu HR HM.
  exists (role_level (role u) >=? role_level M).
  split; [| split; [| split; [| split] ] ].
  - unfold Spec.isAtLeast.
    by rewrite (role_level_Spec _ HR), (role_level_Spec _ HM).
  - intros rr. by apply has_permission_minimum_role.
  - by apply minimum_role_required_authenticated.
  - apply dispatch_minimum_role; [done |].
    apply elem_of_ROLES in HM as [-> | [-> | ->]]; discriminate.
  - apply elem_of_ROLES in HM as [-> | [-> | ->]];
      split; try (intros ->; reflexivity);
      intros ->; split; (reflexivity || discriminate).
Qed.

Lemma minimum_role_check_follows_hierarchy_witness :
  let u := user_with_role 1 "root" "admin" in
  let request := request_by "POST" (Authenticated u) in
  let view_func : @decorators.FunctionView unit :=
    fun _ _ => ret (Response [] HTTP_200_OK) in
  ∃ passes : bool,
    Spec.isAtLeast "admin" "metallurgist" = Some passes
    ∧ (∀ rr, MinimumRolePermission.has_permission request
               (mkViewAttrs rr (Some (Some "metallurgist"))) = Ok passes)
    ∧ @decorators.minimum_role_required plain_framework unit "metallurgist"
        view_func request tt empty_world
      = (if passes then view_func request tt empty_world
         else (Ok (JsonResponse
                     (decorators.insufficient_role_level_payload
                        "metallurgist" "admin") 403), empty_world))
    ∧ decorators.RoleBasedViewMixin_dispatch
        (mkViewAttrs (Some None) (Some (Some "metallurgist")))
        view_func request tt empty_world
      = (if passes then view_func request tt empty_world
         else (Ok (Response
                     (decorators.insufficient_role_level_payload
                        "metallurgist" "admin")
                     HTTP_403_FORBIDDEN), empty_world))
    ∧ ("admin" = "admin" → passes = true)
    ∧ ("admin" = "engineer" → (passes = true ↔ "metallurgist" = "engineer")).
Proof.
  intros u request view_func.
  apply (@minimum_role_check_follows_hierarchy plain_framework unit u
           "metallurgist" request view_func tt empty_world).
  - reflexivity.
  - apply elem_of_ROLES. right; right; reflexivity.
  - apply elem_of_ROLES. right; left; reflexivity.
Defined.

(** ** Safe methods *)


Lemma authenticated_with_role_in_spec (roles : list string) (request : Request) :
  authenticated_with_role_in roles request
  = Ok (match user request with
        | Authenticated u => contains roles (role u)
        | _ => false
        end).
Proof.
  unfold authenticated_with_role_in, user_and_is_authenticated.
  destruct (user request); reflexivity.
Qed.

Lemma user_and_is_authenticated_spec (request : Request) :
  user_and_is_authenticated request
  = Ok (match user request with
        | Authenticated _ => true
        | _ => false
        end).
Proof.
  unfold user_and_is_authenticated. destruct (user request); reflexivity.
Qed.

Lemma read_any_write_privileged_intro
    (has_permission : Request → ViewAttrs → result bool) :
  (∀ request view,
     has_permission request view
     = if contains SAFE_METHODS (method request)
       then user_and_is_authenticated request
       else authenticated_with_role_in ["metallurgist"; "admin"] request) →
  read_any_write_privileged has_permission.
Proof.
  intros Hdef request view. rewrite Hdef.
  rewrite user_and_is_authenticated_spec, authenticated_with_role_in_spec.
  split; [| split].
  - destruct (contains SAFE_METHODS (method request)); eauto.
  - intros Hsafe u Hu. apply contains_spec in Hsafe. by rewrite Hsafe, Hu.
  - intros Hunsafe. apply contains_false in Hunsafe. rewrite Hunsafe.
    split.
    + destruct (user request) as [| | u]; try discriminate.
      intros [= Hin]. apply contains_spec in Hin.
      exists u. split; [done |].
      rewrite !elem_of_cons, elem_of_nil in Hin. tauto.
    + intros (u & -> & Hrole). f_equal. apply contains_spec.
      rewrite !elem_of_cons. tauto.
Qed.

(** C8.  For the dataset-upload and the AI-model-management permission
    checks, a safe method (GET, HEAD, OPTIONS) is granted to every
    authenticated principal whatever the role, and any other method is
    granted exactly to authenticated principals whose role is metallurgist
    or admin. *)
Theorem safe_methods_open_to_authenticated :
  read_any_write_privileged CanUploadDatasets.has_permission
  ∧ read_any_write_privileged CanManageAIModels.has_permission.
Proof.
  split; apply read_any_write_privileged_intro; reflexivity.
Qed.

Example engineer_may_read_datasets :
  CanUploadDatasets.has_permission
    (request_by "GET" (Authenticated (user_with_role 7 "eve" "engineer")))
    (mkViewAttrs None None) = Ok true.
Proof. reflexivity. Qed.

Example engineer_may_not_upload_datasets :
  CanUploadDatasets.has_permission
    (request_by "POST" (Authenticated (user_with_role 7 "eve" "engineer")))
    (mkViewAttrs None None) = Ok false.
Proof. reflexivity. Qed.

Example metallurgist_may_manage_models :
  CanManageAIModels.has_permission
    (request_by "DELETE" (Authenticated (user_with_role 8 "max" "metallurgist")))
    (mkViewAttrs None None) = Ok true.
Proof. reflexivity. Qed.

(** ** Roles outside the closed set *)


(** C1, as claimed, fails: the role ["guest"] is outside the closed set, its
    lookup yields level 0 where the specified lookup fails, and minimum-role
    evaluations go on with that level: a guest is refused at the engineer
    threshold by comparison, not by an error, and the same comparison lets
    the guest through when the threshold is itself unrecognised. *)
Lemma unknown_role_defaults_to_level_zero :
  ("guest" ∉ ROLES)
  ∧ Spec.roleLevel "guest" = Spec.UnknownRoleError
  ∧ lookup_outcome "guest" = Spec.Level 0
  ∧ lookup_outcome "guest" ≠ Spec.roleLevel "guest"
  ∧ MinimumRolePermission.has_permission
      (request_by "GET" (Authenticated (user_with_role 9 "gus" "guest")))
      (mkViewAttrs None (Some (Some "engineer"))) = Ok false
  ∧ MinimumRolePermission.has_permission
      (request_by "GET" (Authenticated (user_with_role 9 "gus" "guest")))
      (mkViewAttrs None (Some (Some "superuser"))) = Ok true
  ∧ ¬ (∀ r, r ∉ ROLES → lookup_outcome r = Spec.UnknownRoleError).
Proof.
  assert ("guest" ∉ ROLES) as Hguest.
  { rewrite elem_of_ROLES. intros [? | [? | ?]]; discriminate. }
  repeat split; try reflexivity; try discriminate; [done |].
  intros Hall. specialize (Hall "guest" Hguest). discriminate.
Qed.

(** C1, amended.  For a role r outside the closed set the lookup yields
    level 0 and nothing is raised; an authenticated principal whose role
    is r is therefore refused, by the level comparison, at every threshold
    of the closed set: the permission class answers false and the decorator
    answers 403 with the threshold and the role. *)
Theorem unknown_role_is_level_zero
    `{Framework} {Args : Type} (r : string) (u : User) (M : string)
    (request : Request) (view_func : decorators.FunctionView) (args : Args)
    (w : World) :
  (r ∉ ROLES) →
  role u = r →
  user request = Authenticated u →
  M ∈ ROLES →
  role_level r = 0
  ∧ lookup_outcome r = Spec.Level 0
  ∧ (∀ rr, MinimumRolePermission.has_permission request
             (mkViewAttrs rr (Some (Some M))) = Ok false)
  ∧ (∀ rr, MinimumRolePermission.has_permission request
             (mkViewAttrs rr None) = Ok false)
  ∧ decorators.minimum_role_required M view_func request args w
    = (Ok (JsonResponse
             (decorators.insufficient_role_level_payload M r) 403), w).
Proof.
  intros Hr Hrole Hu HM.
  pose proof (role_level_unknown r Hr) as H0.
  assert (role_level M >= 1) as HM1.
  { apply elem_of_ROLES in HM as [-> | [-> | ->]]; vm_compute; discriminate. }
  assert ((0 >=? role_level M) = false) as Hcmp by lia.
  split; [done |]. split; [unfold lookup_outcome; by rewrite H0 |].
  split; [| split].
  - intros rr. rewrite (has_permission_minimum_role request u rr (Some M) Hu).
    cbn [role_level_opt]. by rewrite Hrole, H0, Hcmp.
  - intros rr. unfold MinimumRolePermission.has_permission,
      user_and_is_authenticated.
    rewrite Hu. cbn -[role_level]. by rewrite Hrole, H0.
  - rewrite (minimum_role_required_authenticated M view_func request args u w Hu).
    by rewrite Hrole, H0, Hcmp.
Qed.

Lemma unknown_role_is_level_zero_witness :
  let u := user_with_role 9 "gus" "guest" in
  let request := request_by "GET" (Authenticated u) in
  let view_func : @decorators.FunctionView unit :=
    fun _ _ => ret (Response [] HTTP_200_OK) in
  role_level "guest" = 0
  ∧ lookup_outcome "guest" = Spec.Level 0
  ∧ (∀ rr, MinimumRolePermission.has_permission request
             (mkViewAttrs rr (Some (Some "engineer"))) = Ok false)
  ∧ (∀ rr, MinimumRolePermission.has_permission request
             (mkViewAttrs rr None) = Ok false)
  ∧ @decorators.minimum_role_required plain_framework unit "engineer"
      view_func request tt empty_world
    = (Ok (JsonResponse
             (decorators.insufficient_role_level_payload "engineer" "guest")
             403), empty_world).
Proof.
  intros u request view_func.
  apply (@unknown_role_is_level_zero plain_framework unit "guest" u "engineer"
           request view_func tt empty_world).
  - rewrite elem_of_ROLES. intros [? | [? | ?]]; discriminate.
  - reflexivity.
  - reflexivity.
  - apply elem_of_ROLES. left; reflexivity.
Defined.

(** The same default applies to the threshold: when the threshold is not a
    recognised role the required level is 0 and every authenticated
    principal passes. *)
Lemma unknown_threshold_admits_everyone (request : Request) (u : User)
    (m : string) (rr : option (option (list string))) :
  user request = Authenticated u →
  (m ∉ ROLES) →
  MinimumRolePermission.has_permission request (mkViewAttrs rr (Some (Some m)))
  = Ok true.
Proof.
  intros Hu Hm. rewrite (has_permission_minimum_role request u rr (Some m) Hu).
  cbn [role_level_opt]. rewrite (role_level_unknown m Hm). f_equal.
  unfold role_level, dict_get. rewrite ROLE_HIERARCHY_lookup.
  repeat case_bool_decide; reflexivity.
Qed.

(** ** Explicit allow-lists and unauthenticated requests *)

Section allow_lists.

Context `{Framework} {Args : Type}.

Lemma role_required_authenticated (roles : list string)
    (view_func : decorators.FunctionView) (request : Request) (args : Args)
    (u : User) (w : World) :
  user request = Authenticated u →
  decorators.role_required roles view_func request args w
  = if contains roles (role u)
    then view_func request args w
    else (Ok (JsonResponse
                (decorators.insufficient_permissions_payload roles (role u)) 403),
          w).
Proof.
  intros Hu.
  unfold decorators.role_required, decorators.login_required,
    decorators.role_required_wrapped_view, bindM, lift, ret.
  rewrite Hu. simpl. destruct (contains roles (role u)); reflexivity.
Qed.

Lemma api_role_required_authenticated {Self : Type} (roles : list string)
    (view_func : decorators.MethodView Self) (self : Self) (request : Request)
    (args : Args) (u : User) (w : World) :
  user request = Authenticated u →
  decorators.api_role_required roles view_func self request args w
  = if contains roles (role u)
    then view_func self request args w
    else (Ok (Response
                (decorators.insufficient_permissions_payload roles (role u))
                HTTP_403_FORBIDDEN),
          w).
Proof.
  intros Hu.
  unfold decorators.api_role_required, bindM, lift, ret.
  rewrite Hu. simpl. destruct (contains roles (role u)); reflexivity.
Qed.

(** What [role_required]'s own wrapper answers to an anonymous request,
    were it reached. *)
Lemma role_required_wrapped_view_anonymous (roles : list string)
    (view_func : decorators.FunctionView) (request : Request) (args : Args)
    (w : World) :
  user request = AnonymousUser →
  decorators.role_required_wrapped_view roles view_func request args w
  = (Ok (JsonResponse decorators.authentication_required_payload 401), w).
Proof.
  intros Hu. unfold decorators.role_required_wrapped_view, bindM, lift, ret.
  by rewrite Hu.
Qed.

(** The decorator for REST framework methods answers 401 to an anonymous
    request, whatever the roles. *)
Lemma api_role_required_anonymous {Self : Type} (roles : list string)
    (view_func : decorators.MethodView Self) (self : Self) (request : Request)
    (args : Args) (w : World) :
  user request = AnonymousUser →
  decorators.api_role_required roles view_func self request args w
  = (Ok (Response decorators.authentication_required_payload
           HTTP_401_UNAUTHORIZED), w).
Proof.
  intros Hu. unfold decorators.api_role_required, bindM, lift, ret.
  by rewrite Hu.
Qed.


End allow_lists.

(** The generic permission class refuses whoever is not authenticated
    before it looks at the roles the view requires. *)
Lemma RoleBasedPermission_unauthenticated (request : Request) (view : ViewAttrs) :
  (∀ u, user request ≠ Authenticated u) →
  RoleBasedPermission.has_permission request view = Ok false.
Proof.
  intros Hu. unfold RoleBasedPermission.has_permission, user_and_is_authenticated.
  destruct (user request) as [| | u]; try reflexivity.
  by destruct (Hu u).
Qed.

(** C7.  For an authenticated principal and an action guarded by an
    explicit allow-list L (function decorator and method decorator alike),
    the guard hands the request to the handler when the principal's role is
    in L, and otherwise answers 403 with a payload that carries L as the
    required roles and the principal's role; so the handler is reached, for
    every handler, exactly when the role is in L. *)
Theorem allow_list_decides
    `{Framework} {Args Self : Type} (L : list string) (u : User)
    (request : Request) (args : Args) (self : Self) (w : World) :
  user request = Authenticated u →
  (role u ∈ L →
     (∀ view_func,
        decorators.role_required L view_func request args w
        = view_func request args w)
     ∧ (∀ view_func : decorators.MethodView Self,
          decorators.api_role_required L view_func self request args w
          = view_func self request args w))
  ∧ ((role u ∉ L) →
     (∀ view_func,
        decorators.role_required L view_func request args w
        = (Ok (JsonResponse
                 [("error", JStr "Insufficient permissions");
                  ("required_roles", JRoles L);
                  ("user_role", JStr (role u))] 403), w))
     ∧ (∀ view_func : decorators.MethodView Self,
          decorators.api_role_required L view_func self request args w
          = (Ok (Response
                   [("error", JStr "Insufficient permissions");
                    ("required_roles", JRoles L);
                    ("user_role", JStr (role u))] HTTP_403_FORBIDDEN), w)))
  ∧ ((∀ view_func,
        decorators.role_required L view_func request args w
        = view_func request args w)
     ↔ role u ∈ L)
  ∧ ((∀ view_func : decorators.MethodView Self,
        decorators.api_role_required L view_func self request args w
        = view_func self request args w)
     ↔ role u ∈ L).
Proof.
  intros Hu.
  assert (∀ view_func,
            decorators.role_required L view_func request args w
            = if contains L (role u) then view_func request args w
              else (Ok (JsonResponse
                          (decorators.insufficient_permissions_payload L (role u))
                          403), w)) as Hfun.
  { intros. by apply role_required_authenticated. }
  assert (∀ view_func : decorators.MethodView Self,
            decorators.api_role_required L view_func self request args w
            = if contains L (role u) then view_func self request args w
              else (Ok (Response
                          (decorators.insufficient_permissions_payload L (role u))
                          HTTP_403_FORBIDDEN), w)) as Hmeth.
  { intros. by apply api_role_required_authenticated. }
  split; [| split; [| split] ].
  - intros Hin. apply contains_spec in Hin.
    split; intros view_func; [rewrite Hfun | rewrite Hmeth]; by rewrite Hin.
  - intros Hout. apply contains_false in Hout.
    split; intros view_func; [rewrite Hfun | rewrite Hmeth]; by rewrite Hout.
  - split.
    + intros Hall. apply contains_spec.
      specialize (Hall (fun _ _ => ret (Response [] HTTP_200_OK))).
      rewrite Hfun in Hall.
      destruct (contains L (role u)); [done | discriminate].
    + intros Hin view_func. apply contains_spec in Hin.
      by rewrite Hfun, Hin.
  - split.
    + intros Hall. apply contains_spec.
      specialize (Hall (fun _ _ _ => ret (Response [] HTTP_200_OK))).
      rewrite Hmeth in Hall.
      destruct (contains L (role u)); [done | discriminate].
    + intros Hin view_func. apply contains_spec in Hin.
      by rewrite Hmeth, Hin.
Qed.

Lemma allow_list_decides_witness :
  let u := user_with_role 7 "eve" "engineer" in
  let request := request_by "DELETE" (Authenticated u) in
  let view_func : @decorators.FunctionView unit :=
    fun _ _ => ret (Response [] HTTP_204_NO_CONTENT) in
  @decorators.role_required plain_framework unit ["admin"] view_func
    request tt empty_world
  = (Ok (JsonResponse
           [("error", JStr "Insufficient permissions");
            ("required_roles", JRoles ["admin"]);
            ("user_role", JStr "engineer")] 403), empty_world).
Proof.
  intros u request view_func.
  refine (proj1 (proj1 (proj2
    (@allow_list_decides plain_framework unit unit ["admin"] u request tt tt
       empty_world eq_refl)) _) view_func).
  rewrite elem_of_cons, elem_of_nil. intros [? | []]. discriminate.
Defined.

(** C3.  The function decorator does not answer an anonymous request with
    401: [login_required], wrapped around the decorator's own view, answers
    first, with a redirect to the login page (302), for every list of
    roles and every threshold; the 401 branch that the wrapped view has for
    such a request is never reached.  The answer carries no role. *)
Theorem role_required_redirects_anonymous
    `{Framework} {Args : Type} (roles : list string) (minimum : string)
    (view_func : decorators.FunctionView) (m p : string)
    (d : gmap string string) (args : Args) (w : World) :
  let request := mkRequest m p AnonymousUser d in
  decorators.role_required roles view_func request args w
  = (Ok (HttpResponseRedirect LOGIN_URL p), w)
  ∧ decorators.minimum_role_required minimum view_func request args w
    = (Ok (HttpResponseRedirect LOGIN_URL p), w)
  ∧ status_code (HttpResponseRedirect LOGIN_URL p) = 302
  ∧ status_code (HttpResponseRedirect LOGIN_URL p) ≠ 401
  ∧ decorators.role_required_wrapped_view roles view_func request args w
    = (Ok (JsonResponse [("error", JStr "Authentication required")] 401), w).
Proof.
  intros request. repeat split. discriminate.
Qed.

Example admin_required_anonymous :
  @decorators.admin_required plain_framework unit
    (fun _ _ => ret (Response [] HTTP_200_OK))
    (mkRequest "GET" "/reports/" AnonymousUser ∅) tt empty_world
  = (Ok (HttpResponseRedirect "/accounts/login/" "/reports/"), empty_world).
Proof. reflexivity. Qed.

(** With no user at all on the request, the decorators raise. *)
Lemma role_required_no_user
    `{Framework} {Args : Type} (roles : list string)
    (view_func : decorators.FunctionView) (request : Request) (args : Args)
    (w : World) :
  user request = PyNone →
  decorators.role_required roles view_func request args w
  = (Raise (AttributeError "NoneType" "is_authenticated"), w).
Proof.
  intros Hu.
  unfold decorators.role_required, decorators.login_required, bindM, lift.
  by rewrite Hu.
Qed.

(** ** Ownership *)

Lemma filter_idempotent {A} (P : A → Prop) `{∀ x, Decision (P x)} (l : list A) :
  filter P (filter P l) = filter P l.
Proof.
  induction l as [| x l IH]; [reflexivity |].
  rewrite filter_cons. case_decide as Hx; [| exact IH].
  rewrite filter_cons. case_decide; [| contradiction].
  by rewrite IH.
Qed.

Lemma get_queryset_authenticated (C : list Resource) (request : Request) (u : User) :
  user request = Authenticated u →
  OwnershipMixin.get_queryset C request
  = Ok (if bool_decide (role u = "admin") then C
        else filter (fun row => row !! "created_by" = Some (VRef (id u))) C).
Proof.
  intros Hu. unfold OwnershipMixin.get_queryset, OwnershipMixin.filter_by_owner.
  rewrite Hu. simpl. by case_bool_decide.
Qed.

(** C2.  For every collection C and every principal P, the listing is all
    of C when P's role is admin and otherwise exactly the rows of C whose
    created_by is P; a row owned by someone else is never in the listing
    of a principal who is not an admin.  A request without a principal
    lists nothing. *)
Theorem ownership_scoped_listing
    (C : list Resource) (u : User) (m p : string) (d : gmap string string) :
  let P := mkRequest m p (Authenticated u) d in
  (role u = "admin" → OwnershipMixin.get_queryset C P = Ok C)
  ∧ (role u ≠ "admin" →
     OwnershipMixin.get_queryset C P
     = Ok (filter (fun row => row !! "created_by" = Some (VRef (id u))) C))
  ∧ (role u ≠ "admin" →
     ∀ X visible,
       X !! "created_by" ≠ Some (VRef (id u)) →
       OwnershipMixin.get_queryset C P = Ok visible →
       X ∉ visible)
  ∧ (role u ≠ "admin" →
     ∀ X visible,
       OwnershipMixin.get_queryset C P = Ok visible →
       (X ∈ visible ↔ X ∈ C ∧ X !! "created_by" = Some (VRef (id u))))
  ∧ OwnershipMixin.get_queryset C (mkRequest m p AnonymousUser d) = Ok [].
Proof.
  intros P.
  pose proof (get_queryset_authenticated C P u eq_refl) as Hq.
  assert (role u ≠ "admin" →
          ∀ visible, OwnershipMixin.get_queryset C P = Ok visible →
            visible = filter (fun row => row !! "created_by" = Some (VRef (id u))) C)
    as Hown.
  { intros Hother visible Hvis.
    rewrite Hq, bool_decide_eq_false_2 in Hvis by done. congruence. }
  split; [| split; [| split; [| split] ] ].
  - intros Hadmin. by rewrite Hq, bool_decide_eq_true_2.
  - intros Hother. by rewrite Hq, bool_decide_eq_false_2.
  - intros Hother X visible HX Hvis.
    rewrite (Hown Hother visible Hvis), list_elem_of_filter. tauto.
  - intros Hother X visible Hvis.
    rewrite (Hown Hother visible Hvis), list_elem_of_filter. tauto.
  - reflexivity.
Qed.

Lemma ownership_scoped_listing_witness :
  let eve := user_with_role 7 "eve" "engineer" in
  let mine : Resource := {[ "title" := VStr "slag"; "created_by" := VRef 7 ]} in
  let theirs : Resource := {[ "title" := VStr "ore"; "created_by" := VRef 8 ]} in
  OwnershipMixin.get_queryset [mine; theirs]
    (mkRequest "GET" "/reports/" (Authenticated eve) ∅)
  = Ok (filter (fun row => row !! "created_by" = Some (VRef 7)) [mine; theirs]).
Proof.
  intros eve mine theirs.
  refine (proj1 (proj2
    (ownership_scoped_listing [mine; theirs] eve "GET" "/reports/" ∅)) _).
  discriminate.
Defined.

Example engineer_sees_own_rows_only :
  let mine : Resource := {[ "title" := VStr "slag"; "created_by" := VRef 7 ]} in
  let theirs : Resource := {[ "title" := VStr "ore"; "created_by" := VRef 8 ]} in
  OwnershipMixin.get_queryset [mine; theirs]
    (mkRequest "GET" "/reports/"
       (Authenticated (user_with_role 7 "eve" "engineer")) ∅)
  = Ok [mine].
Proof. vm_compute. reflexivity. Qed.

Example admin_sees_every_row :
  let mine : Resource := {[ "title" := VStr "slag"; "created_by" := VRef 7 ]} in
  let theirs : Resource := {[ "title" := VStr "ore"; "created_by" := VRef 8 ]} in
  OwnershipMixin.get_queryset [mine; theirs]
    (mkRequest "GET" "/reports/"
       (Authenticated (user_with_role 1 "root" "admin")) ∅)
  = Ok [mine; theirs].
Proof. vm_compute. reflexivity. Qed.

(** C10.  Listing is idempotent: listing the listing of C for P gives the
    listing of C for P, whoever P is. *)
Theorem ownership_listing_idempotent (C : list Resource) (P : Request) :
  Py.bind (OwnershipMixin.get_queryset C P)
    (fun visible => OwnershipMixin.get_queryset visible P)
  = OwnershipMixin.get_queryset C P.
Proof.
  destruct (user P) as [| | u] eqn:Hu.
  - unfold OwnershipMixin.get_queryset. by rewrite Hu.
  - unfold OwnershipMixin.get_queryset. by rewrite Hu.
  - rewrite (get_queryset_authenticated C P u Hu). simpl.
    rewrite (get_queryset_authenticated _ P u Hu).
    case_bool_decide; [reflexivity |].
    by rewrite filter_idempotent.
Qed.

(** C9.  A creation through the mixin stores the row with created_by set
    to the requesting principal, whatever owner the validated data carried;
    every other column is stored as validated. *)
Theorem owner_is_stamped_on_create
    (validated_data : Resource) (u : User) (m p : string)
    (d : gmap string string) (w : World) :
  let P := mkRequest m p (Authenticated u) d in
  ∃ row,
    OwnershipMixin.perform_create validated_data P w
    = (Ok row, mkWorld (users w) (objects w ++ [row]) (permissions_log w))
    ∧ row !! "created_by" = Some (VRef (id u))
    ∧ (∀ column, column ≠ "created_by" → row !! column = validated_data !! column).
Proof.
  intros P.
  exists ({[ "created_by" := VRef (id u) ]} ∪ validated_data).
  split; [reflexivity |]. split.
  - apply lookup_union_Some_l. apply lookup_singleton_eq.
  - intros column Hcol. rewrite lookup_union_r; [done |].
    by apply lookup_singleton_ne.
Qed.

Example client_owner_is_overwritten :
  let sent : Resource := {[ "title" := VStr "slag"; "created_by" := VRef 1 ]} in
  fst (OwnershipMixin.perform_create sent
         (mkRequest "POST" "/reports/"
            (Authenticated (user_with_role 7 "eve" "engineer")) ∅)
         empty_world)
  = Ok ({[ "title" := VStr "slag"; "created_by" := VRef 7 ]} : Resource).
Proof. vm_compute. reflexivity. Qed.

(** ** Registration *)

Section registration.

Context `{Framework}.

Lemma gather_omitted (fs : list (string * serializers.field_result)) (n : string) :
  serializers.gather (fs ++ [(n, serializers.Omitted)]) = serializers.gather fs.
Proof.
  induction fs as [| [name fr] fs IH]; [reflexivity |].
  simpl. by rewrite IH.
Qed.

Lemma gather_validated (fs : list (string * serializers.field_result))
    (n v : string) :
  serializers.gather (fs ++ [(n, serializers.Validated v)])
  = ((serializers.gather fs).1, (serializers.gather fs).2 ∪ {[ n := v ]}).
Proof.
  induction fs as [| [name fr] fs IH].
  - simpl. f_equal. by rewrite insert_empty, (left_id_L ∅ (∪)).
  - simpl. rewrite IH. destruct (serializers.gather fs) as [errors attrs].
    destruct fr; simpl; try reflexivity.
    f_equal. by rewrite insert_union_l.
Qed.

Lemma gather_lookup_None (fs : list (string * serializers.field_result))
    (n : string) :
  n ∉ (fst <$> fs) → (serializers.gather fs).2 !! n = None.
Proof.
  induction fs as [| [name fr] fs IH]; intros Hn.
  - apply lookup_empty.
  - rewrite fmap_cons, not_elem_of_cons in Hn. destruct Hn as [Hne Hn].
    simpl. specialize (IH Hn).
    destruct (serializers.gather fs) as [errors attrs].
    destruct fr; simpl in *; try done.
    by rewrite lookup_insert_ne.
Qed.

(** A role of the closed set, sent beside fields that validate on their
    own, validates too and enters the validated data as sent. *)
Lemma to_internal_value_role (fs : list (string * serializers.field_result))
    (r : string) (attrs : gmap string string) :
  "role" ∉ (fst <$> fs) →
  serializers.to_internal_value (fs ++ [("role", serializers.Omitted)]) = Ok attrs →
  serializers.to_internal_value (fs ++ [("role", serializers.Validated r)])
  = Ok (<["role" := r]> attrs)
  ∧ attrs !! "role" = None.
Proof.
  intros Hfs. unfold serializers.to_internal_value.
  rewrite gather_omitted, gather_validated.
  pose proof (gather_lookup_None fs "role" Hfs) as Hnone.
  destruct (serializers.gather fs) as [[| e errors] attrs0]; simpl in *;
    [| discriminate].
  intros [= <-]. split; [| done].
  f_equal. by rewrite insert_union_singleton_r.
Qed.

Lemma role_field_accepts (r : string) :
  r ∈ ROLES → serializers.role_field (Some r) = serializers.Validated r.
Proof.
  intros Hr. unfold serializers.role_field.
  by rewrite (proj2 (contains_spec ROLES r) Hr).
Qed.

(** [create_user] stores the role it is given. *)
Lemma create_user_role (vd : gmap string string) (r : string) (w w0 : World)
    (u0 : User) :
  serializers.create_user vd w = (Ok u0, w0) →
  ∃ u, serializers.create_user (<["role" := r]> vd) w
       = (Ok u, mkWorld (users w ++ [u]) (objects w) (permissions_log w))
       ∧ role u = r
       ∧ username u = username u0.
Proof.
  unfold serializers.create_user, bindM, lift, raise, dict_getitem, dict_get.
  rewrite !lookup_insert_ne, lookup_insert_eq by done.
  destruct (vd !! "username") as [name |]; [| discriminate].
  case_bool_decide; [discriminate |].
  intros [= <- <-]. eexists. split; [reflexivity |]. done.
Qed.

Lemma RegisterSerializer_role (d : gmap string string) (us : list User)
    (r : string) (attrs : gmap string string) :
  r ∈ ROLES →
  serializers.RegisterSerializer_run_validation (delete "role" d) us = Ok attrs →
  serializers.RegisterSerializer_run_validation (<["role" := r]> d) us
  = Ok (<["role" := r]> attrs)
  ∧ attrs !! "role" = None.
Proof.
  intros Hr.
  unfold serializers.RegisterSerializer_run_validation,
    serializers.RegisterSerializer_fields.
  rewrite !lookup_delete_ne, lookup_delete_eq by done.
  rewrite !lookup_insert_ne, lookup_insert_eq by done.
  rewrite (role_field_accepts r Hr).
  match goal with
  | |- context [ ?a :: ?b :: ?c :: ?e :: [("role", serializers.role_field None)] ] =>
      change (a :: b :: c :: e :: [("role", serializers.role_field None)])
        with (([a; b; c; e] ++ [("role", serializers.Omitted)])%list);
      change (a :: b :: c :: e :: [("role", serializers.Validated r)])
        with (([a; b; c; e] ++ [("role", serializers.Validated r)])%list);
      set (fs := [a; b; c; e])
  end.
  assert ("role" ∉ (fst <$> fs)) as Hfs.
  { subst fs. simpl. rewrite !not_elem_of_cons. repeat split; try done.
    apply not_elem_of_nil. }
  destruct (serializers.to_internal_value (fs ++ [("role", serializers.Omitted)]))
    as [attrs0 | e] eqn:Hint; [| discriminate].
  destruct (to_internal_value_role fs r attrs0 Hfs Hint) as [-> Hnone].
  simpl. unfold serializers.RegisterSerializer_validate, dict_getitem.
  rewrite !lookup_insert_ne by done.
  destruct (attrs0 !! "password") as [pw |]; simpl; [| discriminate].
  destruct (attrs0 !! "password2") as [pw2 |]; simpl; [| discriminate].
  destruct (negb (pw =? pw2)%string); [discriminate |].
  intros [= <-]. done.
Qed.

Lemma UserRegistrationSerializer_role (d : gmap string string) (us : list User)
    (r : string) (attrs : gmap string string) :
  r ∈ ROLES →
  serializers.UserRegistrationSerializer_run_validation (delete "role" d) us
  = Ok attrs →
  serializers.UserRegistrationSerializer_run_validation (<["role" := r]> d) us
  = Ok (<["role" := r]> attrs)
  ∧ attrs !! "role" = None.
Proof.
  intros Hr.
  unfold serializers.UserRegistrationSerializer_run_validation,
    serializers.UserRegistrationSerializer_fields.
  rewrite !lookup_delete_ne, lookup_delete_eq by done.
  rewrite !lookup_insert_ne, lookup_insert_eq by done.
  rewrite (role_field_accepts r Hr).
  match goal with
  | |- context [ ?a :: ?b :: ?c :: ?e :: ?f :: ?g
                 :: [("role", serializers.role_field None)] ] =>
      change (a :: b :: c :: e :: f :: g :: [("role", serializers.role_field None)])
        with (([a; b; c; e; f; g] ++ [("role", serializers.Omitted)])%list);
      change (a :: b :: c :: e :: f :: g :: [("role", serializers.Validated r)])
        with (([a; b; c; e; f; g] ++ [("role", serializers.Validated r)])%list);
      set (fs := [a; b; c; e; f; g])
  end.
  assert ("role" ∉ (fst <$> fs)) as Hfs.
  { subst fs. simpl. rewrite !not_elem_of_cons. repeat split; try done.
    apply not_elem_of_nil. }
  destruct (serializers.to_internal_value (fs ++ [("role", serializers.Omitted)]))
    as [attrs0 | e] eqn:Hint; [| discriminate].
  destruct (to_internal_value_role fs r attrs0 Hfs Hint) as [-> Hnone].
  simpl. unfold serializers.UserRegistrationSerializer_validate, dict_getitem.
  rewrite !lookup_insert_ne by done.
  destruct (attrs0 !! "password") as [pw |]; simpl; [| discriminate].
  destruct (attrs0 !! "password_confirm") as [pw2 |]; simpl; [| discriminate].
  destruct (negb (pw =? pw2)%string); [discriminate |].
  intros [= <-]. done.
Qed.

Lemma created_handle_exception (m : M HttpResponse) (w : World) :
  created (views.handle_exception m w) →
  ∃ response w', m w = (Ok response, w') ∧ status_code response = HTTP_201_CREATED.
Proof.
  unfold created, views.handle_exception.
  destruct (m w) as [[response | e] w'].
  { simpl. intros (response' & [= <-] & Hst). eauto. }
  destruct e; simpl; intros (response & Heq & Hst);
    try discriminate; injection Heq as <-; discriminate.
Qed.

Lemma RegisterView_POST (request : Request) (kwargs : Kwargs) (w : World) :
  method request = "POST" →
  views.RegisterView request kwargs w
  = views.handle_exception (views.RegisterView_post request kwargs) w.
Proof.
  intros Hm. unfold views.RegisterView, views.APIView_dispatch. by rewrite Hm.
Qed.

Lemma register_POST (request : Request) (kwargs : Kwargs) (w : World) :
  method request = "POST" →
  views.register request kwargs w
  = views.handle_exception
      (decorators.log_permission_check "register" views.register_func
         request kwargs) w.
Proof.
  intros Hm. unfold views.register, views.APIView_dispatch. by rewrite Hm.
Qed.

Lemma RegisterView_post_role (request : Request) (kwargs : Kwargs)
    (w w' : World) (r : string) (response : HttpResponse) :
  r ∈ ROLES →
  views.RegisterView_post (with_data request (delete "role" (data request)))
    kwargs w = (Ok response, w') →
  ∃ u,
    views.RegisterView_post (with_data request (<["role" := r]> (data request)))
      kwargs w
    = (Ok (Response (serializers.RegisterSerializer_data u) HTTP_201_CREATED),
       mkWorld (users w ++ [u]) (objects w) (permissions_log w))
    ∧ role u = r.
Proof.
  intros Hr.
  unfold views.RegisterView_post, bindM, get_world, lift, ret, with_data.
  cbn [data].
  destruct (serializers.RegisterSerializer_run_validation
              (delete "role" (data request)) (users w)) as [attrs | e] eqn:Hval;
    [| discriminate].
  destruct (RegisterSerializer_role _ _ r attrs Hr Hval) as [-> Hnone].
  unfold serializers.RegisterSerializer_create, bindM, lift, dict_getitem.
  rewrite lookup_insert_ne by done.
  destruct (attrs !! "password2") as [pw2 |]; [| discriminate].
  rewrite delete_insert_ne by done.
  destruct (serializers.create_user (delete "password2" attrs) w)
    as [[u0 | e] w0] eqn:Hcreate; [| discriminate].
  intros _.
  destruct (create_user_role _ r w w0 u0 Hcreate) as (u & -> & Hrole & _).
  by exists u.
Qed.


(** The wrapper around a function-based view: one record before the
    view runs, one more after an answer 403. *)
Lemma log_permission_check_request (name : string)
    (func : Request → Kwargs → M HttpResponse) (request : Request)
    (kwargs : Kwargs) (w : World) :
  decorators.log_permission_check name func request kwargs w
  = match func request kwargs
            (mkWorld (users w) (objects w)
               (permissions_log w ++ [permission_check_record name request])) with
    | (Ok response, w2) =>
        (Ok response,
         if bool_decide (status_code response = 403)
         then mkWorld (users w2) (objects w2)
                (permissions_log w2 ++ [permission_denied_record name request])
         else w2)
    | (Raise e, w2) => (Raise e, w2)
    end.
Proof.
  unfold decorators.log_permission_check, bindM, lift, ret.
  cbn [getattr_user attr_path Request_object].
  assert (decorators.user_info_of (user request) = Ok (user_info (user request)))
    as ->.
  { destruct (user request); reflexivity. }
  unfold logger.info at 1, logger.emit at 1.
  unfold permission_check_record, permission_denied_record.
  destruct (func request kwargs _) as [[response | e] w2]; [| reflexivity].
  case_bool_decide; reflexivity.
Qed.

Lemma register_func_role (request : Request) (kwargs : Kwargs)
    (w w' : World) (r : string) (response : HttpResponse) :
  r ∈ ROLES →
  views.register_func (with_data request (delete "role" (data request)))
    kwargs w = (Ok response, w') →
  status_code response = HTTP_201_CREATED →
  ∃ u,
    views.register_func (with_data request (<["role" := r]> (data request)))
      kwargs w
    = (Ok (Response
             [ ("message", JStr "User created successfully");
               ("user", JDict (serializers.UserProfileSerializer_data u
                               ++ [("permissions", views.permissions_payload u)])) ]
             HTTP_201_CREATED),
       mkWorld (users w ++ [u]) (objects w) (permissions_log w))
    ∧ role u = r.
Proof.
  intros Hr.
  unfold views.register_func, bindM, get_world, lift, ret, raise, with_data.
  cbn [data].
  destruct (serializers.UserRegistrationSerializer_run_validation
              (delete "role" (data request)) (users w)) as [attrs | e] eqn:Hval.
  - destruct (UserRegistrationSerializer_role _ _ r attrs Hr Hval) as [-> Hnone].
    unfold serializers.UserRegistrationSerializer_create.
    rewrite delete_insert_ne by done.
    destruct (serializers.create_user (delete "password_confirm" attrs) w)
      as [[u0 | e] w0] eqn:Hcreate; [| discriminate].
    intros _ _.
    destruct (create_user_role _ r w w0 u0 Hcreate) as (u & -> & Hrole & _).
    by exists u.
  - destruct e; try discriminate.
    intros [= <- <-]. discriminate.
Qed.

End registration.

(** C5.  Registration needs no authentication and stores the role the
    client sends: on either registration endpoint, whenever a submission
    would be accepted without a role field, the same submission with
    role=r, for any r of the closed set (admin included), is accepted
    whoever sends it, and the account created has role r. *)
Theorem registration_stores_submitted_role
    `{Framework} (r : string) (request : Request) (kwargs : Kwargs)
    (w : World) :
  r ∈ ROLES →
  method request = "POST" →
  let without_role := with_data request (delete "role" (data request)) in
  let with_role := with_data request (<["role" := r]> (data request)) in
  (created (views.RegisterView without_role kwargs w) →
   ∃ u,
     views.RegisterView with_role kwargs w
     = (Ok (Response [ ("username", JStr (username u));
                       ("email", JStr (email u));
                       ("role", JStr r) ] HTTP_201_CREATED),
        mkWorld (users w ++ [u]) (objects w) (permissions_log w))
     ∧ role u = r)
  ∧ (created (views.register without_role kwargs w) →
     ∃ u payload log,
       views.register with_role kwargs w
       = (Ok (Response payload HTTP_201_CREATED),
          mkWorld (users w ++ [u]) (objects w) log)
       ∧ role u = r).
Proof.
  intros Hr Hm without_role with_role.
  assert (method without_role = "POST") as Hm0 by done.
  assert (method with_role = "POST") as Hm1 by done.
  split; intros Hacc.
  - rewrite (RegisterView_POST _ _ _ Hm0) in Hacc.
    apply created_handle_exception in Hacc as (response & w' & Hpost & _).
    destruct (RegisterView_post_role request kwargs w w' r response Hr Hpost)
      as (u & Hrun & Hrole).
    exists u. split; [| done].
    rewrite (RegisterView_POST _ _ _ Hm1). unfold views.handle_exception.
    fold with_role in Hrun. rewrite Hrun.
    unfold serializers.RegisterSerializer_data. by rewrite Hrole.
  - rewrite (register_POST _ _ _ Hm0) in Hacc.
    apply created_handle_exception in Hacc as (response & w' & Hlog & Hst).
    rewrite log_permission_check_request in Hlog.
    match type of Hlog with
    | context [views.register_func without_role kwargs ?w1] =>
        destruct (views.register_func without_role kwargs w1)
          as [[response0 | e] w2] eqn:Hfunc; [| discriminate]
    end.
    assert (response0 = response) as -> by congruence.
    destruct (register_func_role request kwargs _ w2 r response Hr Hfunc Hst)
      as (u & Hrun & Hrole).
    exists u. do 2 eexists. split; [| done].
    rewrite (register_POST _ _ _ Hm1). unfold views.handle_exception.
    rewrite log_permission_check_request.
    change (permission_check_record "register" with_role)
      with (permission_check_record "register" without_role).
    fold with_role in Hrun. rewrite Hrun.
    rewrite bool_decide_eq_false_2 by discriminate.
    reflexivity.
Qed.

Lemma registration_stores_submitted_role_witness :
  let request :=
    mkRequest "POST" "/api/users/register/" AnonymousUser (sign_up "mallory" "engineer") in
  ∃ u,
    @views.RegisterView plain_framework
      (with_data request (<["role" := "admin"]> (data request))) ∅ empty_world
    = (Ok (Response [ ("username", JStr (username u));
                      ("email", JStr (email u));
                      ("role", JStr "admin") ] HTTP_201_CREATED),
       mkWorld (users empty_world ++ [u]) (objects empty_world)
         (permissions_log empty_world))
    ∧ role u = "admin".
Proof.
  intros request.
  refine (proj1 (@registration_stores_submitted_role plain_framework "admin"
                   request ∅ empty_world _ eq_refl) _).
  - apply elem_of_ROLES. right; right; reflexivity.
  - exists (Response [ ("username", JStr "mallory"); ("email", JStr "");
                       ("role", JStr "engineer") ] HTTP_201_CREATED).
    split; vm_compute; reflexivity.
Defined.

Example anonymous_registers_as_admin :
  let request :=
    mkRequest "POST" "/api/users/register/" AnonymousUser (sign_up "mallory" "admin") in
  users (@views.RegisterView plain_framework request ∅ empty_world).2
  = [mkUser 1 "mallory" "" "hash:correct horse" "" "" "admin"].
Proof. vm_compute. reflexivity. Qed.

Example unknown_role_is_refused_at_registration :
  let request :=
    mkRequest "POST" "/api/users/register/" AnonymousUser (sign_up "mallory" "root") in
  @views.RegisterView plain_framework request ∅ empty_world
  = (Ok (Response [("role", JList [JStr "Not a valid choice."])]
           HTTP_400_BAD_REQUEST), empty_world).
Proof. vm_compute. reflexivity. Qed.

(** ** Account deletion *)

Section deletion.

Context `{Framework}.

(** The body of [delete], called on its own arguments, refuses the
    deletion of the requester's own account with the dedicated answer and
    leaves the table as it is. *)
Lemma delete_func_refuses_self (request : Request) (kwargs : Kwargs)
    (pk : Z) (u obj : User) (w : World) :
  user request = Authenticated u →
  kwargs !! "id" = Some pk →
  find (fun x => bool_decide (id x = pk)) (users w) = Some obj →
  id u = pk →
  views.UserManagementView_delete_func (mkViewInstance request kwargs)
    (request, kwargs) w
  = (Ok (Response [("error", JStr "Cannot delete your own account")]
           HTTP_400_BAD_REQUEST), w).
Proof.
  intros Hu Hk Hfind Hid.
  unfold views.UserManagementView_delete_func, views.get_object, bindM, lift,
    get_world, ret.
  cbn [self_kwargs]. rewrite Hk, Hfind, Hu.
  apply find_some in Hfind as [_ Hobj]. apply bool_decide_eq_true in Hobj.
  unfold views.equals_request_user, User_eq.
  rewrite bool_decide_eq_true_2 by congruence. reflexivity.
Qed.

(** The body deletes any other account. *)
Lemma delete_func_deletes_other (request : Request) (kwargs : Kwargs)
    (pk : Z) (u obj : User) (w : World) :
  user request = Authenticated u →
  kwargs !! "id" = Some pk →
  find (fun x => bool_decide (id x = pk)) (users w) = Some obj →
  id u ≠ pk →
  views.UserManagementView_delete_func (mkViewInstance request kwargs)
    (request, kwargs) w
  = (Ok (Response [] HTTP_204_NO_CONTENT),
     mkWorld (filter (fun x => id x ≠ pk) (users w)) (objects w)
       (permissions_log w)).
Proof.
  intros Hu Hk Hfind Hid.
  unfold views.UserManagementView_delete_func, views.destroy, views.get_object,
    bindM, lift, get_world, ret.
  cbn [self_kwargs]. rewrite Hk, Hfind, Hu.
  pose proof Hfind as Hfound.
  apply find_some in Hfound as [_ Hobj]. apply bool_decide_eq_true in Hobj.
  unfold views.equals_request_user, User_eq.
  rewrite bool_decide_eq_false_2 by congruence.
  rewrite Hfind. by rewrite Hobj.
Qed.

(** The mixin's role check lets an admin through. *)
Lemma AdminOnlyMixin_admits_admin {Args : Type}
    (super_dispatch : @decorators.FunctionView Args) (request : Request)
    (args : Args) (u : User) (w : World) :
  user request = Authenticated u →
  role u = "admin" →
  decorators.RoleBasedViewMixin_dispatch decorators.AdminOnlyMixin
    super_dispatch request args w
  = super_dispatch request args w.
Proof.
  intros Hu Hrole.
  unfold decorators.RoleBasedViewMixin_dispatch, bindM, lift, ret.
  rewrite Hu. cbn. by rewrite Hrole.
Qed.

(** So do the permission classes of the view, for every method. *)
Lemma UserManagementView_permissions_admit_admin (request : Request)
    (view : ViewAttrs) (u : User) :
  user request = Authenticated u →
  role u = "admin" →
  views.check_permissions
    [views.IsAuthenticated_has_permission; CanManageUsers.has_permission]
    view request
  = Ok true.
Proof.
  intros Hu Hrole.
  unfold views.check_permissions, views.IsAuthenticated_has_permission,
    CanManageUsers.has_permission, user_and_is_authenticated.
  rewrite Hu. cbn. rewrite Hrole.
  by destruct (contains SAFE_METHODS (method request)).
Qed.

(** Under [log_permission_check] a method never reaches its body: the
    wrapper reads [path] off its first argument, which is the view. *)
Lemma log_permission_check_on_method (name : string)
    (func : ViewInstance → Request * Kwargs → M HttpResponse)
    (self : ViewInstance) (rest : Request * Kwargs) (w : World) :
  decorators.log_permission_check name func self rest w
  = (Raise (AttributeError "UserManagementView" "path"), w).
Proof. reflexivity. Qed.

End deletion.

(** C4.  An admin who sends DELETE for their own account gets neither the
    deletion nor the dedicated refusal: the role check and the permission
    classes pass, the handler is the logging wrapper bound to the view, and
    the wrapper raises [AttributeError] before the guard in the body is
    reached.  Nothing is deleted and nothing is logged. *)
Theorem self_delete_raises_before_the_guard
    `{Framework}
    (inherited : string → ViewInstance → Request * Kwargs → M HttpResponse)
    (pk : Z) (name mail hash first last p : string) (d : gmap string string)
    (w : World) :
  let admin := mkUser pk name mail hash first last "admin" in
  let request := mkRequest "DELETE" p (Authenticated admin) d in
  views.UserManagementView inherited request {[ "id" := pk ]} w
  = (Raise (AttributeError "UserManagementView" "path"), w).
Proof.
  intros admin request.
  unfold views.UserManagementView.
  rewrite (AdminOnlyMixin_admits_admin _ request _ admin w eq_refl eq_refl).
  unfold views.APIView_dispatch, views.handle_exception, bindM, lift.
  rewrite (UserManagementView_permissions_admit_admin request _ admin
             eq_refl eq_refl).
  cbn [negb]. change (method request) with "DELETE".
  rewrite bool_decide_eq_true_2 by reflexivity.
  unfold views.UserManagementView_delete.
  by rewrite log_permission_check_on_method.
Qed.

Example admin_deletes_own_account :
  let root := user_with_role 1 "root" "admin" in
  let w := mkWorld [root] [] [] in
  @views.UserManagementView plain_framework
    (fun _ _ _ => ret (Response [] HTTP_200_OK))
    (mkRequest "DELETE" "/api/users/users/1/" (Authenticated root) ∅)
    {[ "id" := 1 ]} w
  = (Raise (AttributeError "UserManagementView" "path"), w)
  ∧ views.UserManagementView_delete_func
      (mkViewInstance (mkRequest "DELETE" "/api/users/users/1/" (Authenticated root) ∅)
         {[ "id" := 1 ]})
      (mkRequest "DELETE" "/api/users/users/1/" (Authenticated root) ∅, {[ "id" := 1 ]})
      w
    = (Ok (Response [("error", JStr "Cannot delete your own account")]
             HTTP_400_BAD_REQUEST), w).
Proof. split; vm_compute; reflexivity. Qed.

(** The same wrapper around a function-based view logs and runs it. *)
Example log_permission_check_on_function :
  @decorators.log_permission_check Request Kwargs _ "probe"
    (fun _ _ => ret (Response [] HTTP_403_FORBIDDEN))
    (mkRequest "GET" "/x/" AnonymousUser ∅) ∅ empty_world
  = (Ok (Response [] HTTP_403_FORBIDDEN),
     mkWorld [] []
       [ mkLogRecord INFO "Permission check: probe - User: Anonymous - Path: /x/";
         mkLogRecord WARNING "Permission denied: probe - User: Anonymous" ]).
Proof. vm_compute. reflexivity. Qed.

(* ===================================================================== *)
(** * Further properties of the code *)
(* ===================================================================== *)

(** ** Permission classes *)

(** X1.  No permission class raises, and none grants anything to a request
    without an authenticated user ([None] or [AnonymousUser]), whatever the
    method and whatever the view declares. *)
Theorem permission_classes_refuse_unauthenticated
    (has_permission : Request → ViewAttrs → result bool) (request : Request)
    (view : ViewAttrs) :
  has_permission ∈ permission_classes_of_the_application →
  (∃ granted, has_permission request view = Ok granted)
  ∧ ((∀ u, user request ≠ Authenticated u) →
     has_permission request view = Ok false).
Proof.
  unfold permission_classes_of_the_application.
  rewrite !elem_of_cons, elem_of_nil.
  intros Hin.
  assert (∀ b : bool,
            (∀ u, user request ≠ Authenticated u) →
            match user request with Authenticated _ => b | _ => false end = false)
    as Hno.
  { intros b Hu. destruct (user request) as [| | u]; try done. by destruct (Hu u). }
  repeat destruct Hin as [-> | Hin]; try done; run_permission;
    (split;
     [ destruct (user request) as [| | u]; cbn;
       repeat match goal with
              | |- context [if ?c then _ else _] => destruct c
              | |- context [match ?x with _ => _ end] => destruct x
              end; eauto
     | intros Hu; destruct (user request) as [| | u];
       [ | | by destruct (Hu u) ]; cbn;
       repeat match goal with
              | |- context [if ?c then _ else _] => destruct c
              end; reflexivity ]).
Qed.

Lemma permission_classes_refuse_unauthenticated_witness :
  (∃ granted,
     CanManageUsers.has_permission (request_by "DELETE" AnonymousUser)
       (mkViewAttrs None None) = Ok granted)
  ∧ ((∀ u, user (request_by "DELETE" AnonymousUser) ≠ Authenticated u) →
     CanManageUsers.has_permission (request_by "DELETE" AnonymousUser)
       (mkViewAttrs None None) = Ok false).
Proof.
  apply (permission_classes_refuse_unauthenticated CanManageUsers.has_permission).
  unfold permission_classes_of_the_application.
  rewrite !elem_of_cons. tauto.
Defined.

Lemma role_level_cases (r : string) :
  role_level r =
    if bool_decide (r = "admin") then 3
    else if bool_decide (r = "metallurgist") then 2
    else if bool_decide (r = "engineer") then 1
    else 0.
Proof.
  unfold role_level, dict_get. rewrite ROLE_HIERARCHY_lookup.
  repeat case_bool_decide; reflexivity.
Qed.

Lemma contains_cons (x y : string) (ys : list string) :
  contains (y :: ys) x = bool_decide (x = y) || contains ys x.
Proof.
  unfold contains.
  destruct (bool_decide (x = y)) eqn:Hxy; simpl.
  - apply bool_decide_eq_true in Hxy as ->. apply bool_decide_eq_true. left.
  - apply bool_decide_eq_false in Hxy.
    apply bool_decide_ext. rewrite elem_of_cons. tauto.
Qed.

Lemma contains_nil (x : string) : contains [] x = false.
Proof. apply bool_decide_eq_false. apply not_elem_of_nil. Qed.

(** X2.  The role classes are nested: whoever passes [IsAdminRole] passes
    [IsMetallurgistOrAdmin], whoever passes that passes [IsEngineerOrAbove],
    and [CanRunLCA] decides exactly as [IsEngineerOrAbove] does. *)
Theorem role_classes_are_nested (request : Request) (view : ViewAttrs) :
  (IsAdminRole.has_permission request view = Ok true →
   IsMetallurgistOrAdmin.has_permission request view = Ok true)
  ∧ (IsMetallurgistOrAdmin.has_permission request view = Ok true →
     IsEngineerOrAbove.has_permission request view = Ok true)
  ∧ CanRunLCA.has_permission request view
    = IsEngineerOrAbove.has_permission request view.
Proof.
  run_permission.
  destruct (user request) as [| | u]; cbn; try (repeat split; discriminate).
  rewrite !contains_cons, contains_nil.
  repeat split.
  - intros [= ->]. by rewrite orb_true_r.
  - intros [= ->]. by rewrite orb_true_r.
Qed.

(** X3.  The level-based class and the list-based classes agree on every
    request: [MinimumRolePermission] with threshold engineer, metallurgist
    or admin decides as [IsEngineerOrAbove], [IsMetallurgistOrAdmin] or
    [IsAdminRole]; a view that declares no threshold gets the engineer
    one. *)
Theorem minimum_role_agrees_with_role_lists
    (request : Request) (rr : option (option (list string))) (view : ViewAttrs) :
  MinimumRolePermission.has_permission request (mkViewAttrs rr (Some (Some "engineer")))
  = IsEngineerOrAbove.has_permission request view
  ∧ MinimumRolePermission.has_permission request
      (mkViewAttrs rr (Some (Some "metallurgist")))
    = IsMetallurgistOrAdmin.has_permission request view
  ∧ MinimumRolePermission.has_permission request (mkViewAttrs rr (Some (Some "admin")))
    = IsAdminRole.has_permission request view
  ∧ MinimumRolePermission.has_permission request (mkViewAttrs rr None)
    = IsEngineerOrAbove.has_permission request view.
Proof.
  run_permission.
  destruct (user request) as [| | u]; cbn -[role_level]; try (repeat split; done).
  rewrite !contains_cons, contains_nil.
  change (role_level "engineer") with 1.
  change (role_level "metallurgist") with 2.
  change (role_level "admin") with 3.
  rewrite (role_level_cases (role u)).
  repeat case_bool_decide; subst; try discriminate; repeat split; reflexivity.
Qed.

(** X4.  [RoleBasedPermission] is permissive by default: when the view
    declares no [required_roles], or declares [None] or an empty list,
    every authenticated user is granted whatever the role; with a list
    that is not empty, exactly the users whose role is in it. *)
Theorem role_based_permission_default_grants
    (request : Request) (u : User) (m : option (option string)) :
  user request = Authenticated u →
  RoleBasedPermission.has_permission request (mkViewAttrs None m) = Ok true
  ∧ RoleBasedPermission.has_permission request (mkViewAttrs (Some None) m) = Ok true
  ∧ RoleBasedPermission.has_permission request (mkViewAttrs (Some (Some [])) m)
    = Ok true
  ∧ (∀ r roles,
       RoleBasedPermission.has_permission request
         (mkViewAttrs (Some (Some (r :: roles))) m) = Ok true
       ↔ role u ∈ r :: roles).
Proof.
  intros Hu. run_permission. rewrite Hu. cbn.
  repeat split; try reflexivity.
  - intros [= Hin]. by apply contains_spec.
  - intros Hin. f_equal. by apply contains_spec.
Qed.

Lemma role_based_permission_default_grants_witness :
  let request := request_by "DELETE" (Authenticated (user_with_role 9 "gus" "guest")) in
  RoleBasedPermission.has_permission request (mkViewAttrs None None) = Ok true
  ∧ RoleBasedPermission.has_permission request (mkViewAttrs (Some None) None) = Ok true
  ∧ RoleBasedPermission.has_permission request (mkViewAttrs (Some (Some [])) None)
    = Ok true
  ∧ (∀ r roles,
       RoleBasedPermission.has_permission request
         (mkViewAttrs (Some (Some (r :: roles))) None) = Ok true
       ↔ "guest" ∈ r :: roles).
Proof.
  intros request.
  exact (role_based_permission_default_grants request
           (user_with_role 9 "gus" "guest") None eq_refl).
Defined.

(** X5.  [CanManageUsers] lets every authenticated user read (GET, HEAD,
    OPTIONS) and lets only admins do anything else. *)
Theorem only_admins_change_users (request : Request) (view : ViewAttrs) :
  (method request ∈ SAFE_METHODS →
   (CanManageUsers.has_permission request view = Ok true
    ↔ ∃ u, user request = Authenticated u))
  ∧ ((method request ∉ SAFE_METHODS) →
     (CanManageUsers.has_permission request view = Ok true
      ↔ ∃ u, user request = Authenticated u ∧ role u = "admin")).
Proof.
  run_permission. split.
  - intros Hsafe. apply contains_spec in Hsafe. rewrite Hsafe.
    destruct (user request) as [| | u]; cbn; split;
      try discriminate; try (intros [u' ?]; discriminate); eauto.
  - intros Hunsafe. apply contains_false in Hunsafe. rewrite Hunsafe.
    destruct (user request) as [| | u]; cbn; split;
      try discriminate; try (intros (u' & ? & ?); discriminate).
    + intros [= Hadmin]. apply bool_decide_eq_true in Hadmin. eauto.
    + intros (u' & [= <-] & Hadmin). by rewrite bool_decide_eq_true_2.
Qed.

(** X6.  Object permission and listing agree: for an authenticated user
    and a row X of a collection C, [CanViewReports.has_object_permission]
    grants X exactly when X is in the user's [OwnershipMixin] listing of
    C. *)
Theorem object_permission_agrees_with_listing
    (C : list Resource) (X : Resource) (request : Request) (view : ViewAttrs)
    (u : User) :
  user request = Authenticated u →
  X ∈ C →
  (CanViewReports.has_object_permission request view X = Ok true
   ↔ ∃ visible, OwnershipMixin.get_queryset C request = Ok visible ∧ X ∈ visible).
Proof.
  intros Hu HX.
  rewrite (get_queryset_authenticated C request u Hu).
  unfold CanViewReports.has_object_permission, CanViewReports.created_by_is.
  rewrite Hu. cbn.
  case_bool_decide as Hadmin.
  - split; [intros _; eauto |]. done.
  - split.
    + intros Hown. eexists. split; [reflexivity |].
      apply list_elem_of_filter. split; [| done].
      destruct (X !! "created_by") as [[| | | pk] |]; try discriminate.
      injection Hown as Hpk. apply bool_decide_eq_true in Hpk. by subst.
    + intros (visible & [= <-] & Hin).
      apply list_elem_of_filter in Hin as [-> _].
      by rewrite bool_decide_eq_true_2.
Qed.

Lemma object_permission_agrees_with_listing_witness :
  let mine : Resource := {[ "title" := VStr "slag"; "created_by" := VRef 7 ]} in
  let theirs : Resource := {[ "title" := VStr "ore"; "created_by" := VRef 8 ]} in
  let request :=
    request_by "GET" (Authenticated (user_with_role 7 "eve" "engineer")) in
  CanViewReports.has_object_permission request (mkViewAttrs None None) theirs
  = Ok true
  ↔ ∃ visible,
      OwnershipMixin.get_queryset [mine; theirs] request = Ok visible
      ∧ theirs ∈ visible.
Proof.
  intros mine theirs request.
  apply (object_permission_agrees_with_listing [mine; theirs] theirs request
           (mkViewAttrs None None) (user_with_role 7 "eve" "engineer") eq_refl).
  rewrite !elem_of_cons. tauto.
Defined.

(** X7.  The minimum-role check is monotone: a user who passes a threshold
    passes every threshold of a lower or equal level, and whatever a user
    passes, a user of a higher or equal level passes too. *)
Theorem minimum_role_check_is_monotone
    (request request' : Request) (u u' : User) (M M' : string)
    (rr : option (option (list string))) :
  user request = Authenticated u →
  user request' = Authenticated u' →
  MinimumRolePermission.has_permission request (mkViewAttrs rr (Some (Some M)))
  = Ok true →
  (role_level M' <= role_level M →
   MinimumRolePermission.has_permission request (mkViewAttrs rr (Some (Some M')))
   = Ok true)
  ∧ (role_level (role u) <= role_level (role u') →
     MinimumRolePermission.has_permission request' (mkViewAttrs rr (Some (Some M)))
     = Ok true).
Proof.
  intros Hu Hu'.
  rewrite !(has_permission_minimum_role request u rr _ Hu).
  rewrite (has_permission_minimum_role request' u' rr _ Hu').
  cbn [role_level_opt]. intros [= Hpass].
  split; intros Hle; f_equal; lia.
Qed.

Lemma minimum_role_check_is_monotone_witness :
  let request := request_by "GET" (Authenticated (user_with_role 8 "max" "metallurgist")) in
  let request' := request_by "GET" (Authenticated (user_with_role 1 "root" "admin")) in
  (role_level "engineer" <= role_level "metallurgist" →
   MinimumRolePermission.has_permission request
     (mkViewAttrs None (Some (Some "engineer"))) = Ok true)
  ∧ (role_level "metallurgist" <= role_level "admin" →
     MinimumRolePermission.has_permission request'
       (mkViewAttrs None (Some (Some "metallurgist"))) = Ok true).
Proof.
  intros request request'.
  exact (minimum_role_check_is_monotone request request'
           (user_with_role 8 "max" "metallurgist") (user_with_role 1 "root" "admin")
           "metallurgist" "engineer" None eq_refl eq_refl eq_refl).
Defined.

(** ** Guards *)

(** X8.  An empty allow-list means opposite things to the two kinds of
    guard: the decorators refuse every authenticated user with 403 and
    never reach the view, while the mixin treats an empty [required_roles]
    as no requirement and lets every authenticated user through. *)
Theorem empty_allow_list_is_read_both_ways
    `{Framework} {Args Self : Type} (u : User) (m p : string)
    (d : gmap string string) (view_func : decorators.FunctionView)
    (method_func : decorators.MethodView Self) (self : Self) (args : Args)
    (w : World) :
  let request := mkRequest m p (Authenticated u) d in
  decorators.role_required [] view_func request args w
  = (Ok (JsonResponse
           [("error", JStr "Insufficient permissions");
            ("required_roles", JList []);
            ("user_role", JStr (role u))] 403), w)
  ∧ decorators.api_role_required [] method_func self request args w
    = (Ok (Response
             [("error", JStr "Insufficient permissions");
              ("required_roles", JList []);
              ("user_role", JStr (role u))] HTTP_403_FORBIDDEN), w)
  ∧ decorators.RoleBasedViewMixin_dispatch (mkViewAttrs (Some (Some [])) (Some None))
      view_func request args w
    = view_func request args w.
Proof.
  intros request.
  rewrite (role_required_authenticated [] view_func request args u w eq_refl).
  rewrite (api_role_required_authenticated [] method_func self request args u w
             eq_refl).
  rewrite contains_nil. repeat split.
Qed.

(** X9.  When a view declares both an allow-list and a minimum role, the
    mixin requires both: the next [dispatch] is reached exactly when the
    role is in the list and its level reaches the threshold; a role
    outside the list is reported as such, whatever its level. *)
Theorem mixin_requires_list_and_level
    `{Framework} {Args : Type} (u : User) (request : Request) (r0 : string)
    (rs : list string) (minimum : string) (args : Args) (w : World) :
  user request = Authenticated u →
  minimum ≠ "" →
  let self := mkViewAttrs (Some (Some (r0 :: rs))) (Some (Some minimum)) in
  ((∀ super_dispatch,
      decorators.RoleBasedViewMixin_dispatch self super_dispatch request args w
      = super_dispatch request args w)
   ↔ role u ∈ r0 :: rs ∧ role_level minimum <= role_level (role u))
  ∧ ((role u ∉ r0 :: rs) →
     ∀ super_dispatch,
       decorators.RoleBasedViewMixin_dispatch self super_dispatch request args w
       = (Ok (Response
                (decorators.insufficient_permissions_payload (r0 :: rs) (role u))
                HTTP_403_FORBIDDEN), w))
  ∧ (role u ∈ r0 :: rs →
     role_level (role u) < role_level minimum →
     ∀ super_dispatch,
       decorators.RoleBasedViewMixin_dispatch self super_dispatch request args w
       = (Ok (Response
                (decorators.insufficient_role_level_payload minimum (role u))
                HTTP_403_FORBIDDEN), w)).
Proof.
  intros Hu Hm self.
  assert (∀ super_dispatch,
            decorators.RoleBasedViewMixin_dispatch self super_dispatch request args w
            = if negb (contains (r0 :: rs) (role u))
              then (Ok (Response
                          (decorators.insufficient_permissions_payload (r0 :: rs)
                             (role u)) HTTP_403_FORBIDDEN), w)
              else if role_level (role u) <? role_level minimum
                   then (Ok (Response
                               (decorators.insufficient_role_level_payload minimum
                                  (role u)) HTTP_403_FORBIDDEN), w)
                   else super_dispatch request args w) as Heval.
  { intros super_dispatch.
    unfold decorators.RoleBasedViewMixin_dispatch, bindM, lift, ret, self.
    rewrite Hu. cbn -[role_level decorators.role_truthy contains].
    assert (decorators.role_truthy (Some (Some minimum)) = Some minimum) as ->.
    { destruct minimum; [congruence | reflexivity]. }
    destruct (contains (r0 :: rs) (role u)); cbn -[role_level]; [| reflexivity].
    by destruct (role_level (role u) <? role_level minimum). }
  split; [| split].
  - split.
    + intros Hall. specialize (Hall (fun _ _ => ret (Response [] HTTP_200_OK))).
      rewrite Heval in Hall.
      destruct (contains (r0 :: rs) (role u)) eqn:Hin; [| discriminate].
      destruct (role_level (role u) <? role_level minimum) eqn:Hlt; [discriminate |].
      apply contains_spec in Hin. apply Z.ltb_ge in Hlt. done.
    + intros [Hin Hle] super_dispatch. rewrite Heval.
      apply contains_spec in Hin. rewrite Hin. cbn [negb].
      apply Z.ltb_ge in Hle. by rewrite Hle.
  - intros Hout super_dispatch. rewrite Heval.
    apply contains_false in Hout. by rewrite Hout.
  - intros Hin Hlt super_dispatch. rewrite Heval.
    apply contains_spec in Hin. rewrite Hin. cbn [negb].
    apply Z.ltb_lt in Hlt. by rewrite Hlt.
Qed.

Lemma mixin_requires_list_and_level_witness :
  let u := user_with_role 7 "eve" "engineer" in
  let request := request_by "GET" (Authenticated u) in
  let self :=
    mkViewAttrs (Some (Some ["engineer"; "admin"])) (Some (Some "metallurgist")) in
  let super_dispatch : @decorators.FunctionView unit :=
    fun _ _ => ret (Response [] HTTP_200_OK) in
  decorators.RoleBasedViewMixin_dispatch self super_dispatch request tt empty_world
  = (Ok (Response
           (decorators.insufficient_role_level_payload "metallurgist" "engineer")
           HTTP_403_FORBIDDEN), empty_world).
Proof.
  intros u request self super_dispatch.
  refine (proj2 (proj2
    (@mixin_requires_list_and_level plain_framework unit u request "engineer"
       ["admin"] "metallurgist" tt empty_world eq_refl _)) _ _ super_dispatch).
  - discriminate.
  - rewrite elem_of_cons. by left.
  - reflexivity.
Defined.

(** X10.  The mixin with an allow-list and the method decorator with the
    same list are one guard: for every request, authenticated or not, they
    give the same outcome around the same handler. *)
Theorem mixin_and_method_decorator_agree
    `{Framework} {Args : Type} (r0 : string) (rs : list string)
    (handler : decorators.FunctionView) (request : Request) (args : Args)
    (w : World) :
  decorators.RoleBasedViewMixin_dispatch
    (mkViewAttrs (Some (Some (r0 :: rs))) (Some None)) handler request args w
  = decorators.api_role_required (r0 :: rs) (fun _ : unit => handler) tt
      request args w.
Proof.
  unfold decorators.RoleBasedViewMixin_dispatch, decorators.api_role_required,
    bindM, lift, ret.
  destruct (user request) as [| | u]; cbn -[contains]; try reflexivity.
  by destruct (contains (r0 :: rs) (role u)).
Qed.

(** X11.  The audit wrapper does not change what a function-based view
    does: the outcome, the user table and the owned rows are those of the
    view, run after one INFO record was written; the log the view leaves
    gets one WARNING record more exactly when the view answered 403; an
    exception of the view passes through. *)
Theorem audit_wrapper_is_transparent
    (name : string) (func : Request → Kwargs → M HttpResponse)
    (request : Request) (kwargs : Kwargs) (w : World) :
  let before :=
    mkWorld (users w) (objects w)
      (permissions_log w ++ [permission_check_record name request]) in
  let wrapped := decorators.log_permission_check name func request kwargs w in
  let plain := func request kwargs before in
  wrapped.1 = plain.1
  ∧ users wrapped.2 = users plain.2
  ∧ objects wrapped.2 = objects plain.2
  ∧ permissions_log wrapped.2
    = (permissions_log plain.2
       ++ match plain.1 with
          | Ok response =>
              if bool_decide (status_code response = 403)
              then [permission_denied_record name request]
              else []
          | Raise _ => []
          end)%list.
Proof.
  intros before wrapped plain. subst wrapped.
  rewrite log_permission_check_request. fold before. fold plain.
  destruct plain as [[response | e] w2]; cbn.
  - case_bool_decide; cbn; by rewrite ?app_nil_r.
  - by rewrite app_nil_r.
Qed.



Example admin_cannot_delete_another_account :
  let root := user_with_role 1 "root" "admin" in
  let eve := user_with_role 7 "eve" "engineer" in
  let w := mkWorld [root; eve] [] [] in
  @views.UserManagementView plain_framework
    (fun _ _ _ => ret (Response [] HTTP_200_OK))
    (mkRequest "DELETE" "/api/users/users/7/" (Authenticated root) ∅)
    {[ "id" := 7 ]} w
  = (Raise (AttributeError "UserManagementView" "path"), w).
Proof. vm_compute. reflexivity. Qed.

(** ** RoleBasedModelViewSet *)

Lemma role_permissions_lookup (action : string) :
  RoleBasedModelViewSet.role_permissions !! action =
    if bool_decide (action = "list") then Some ["engineer"; "metallurgist"; "admin"]
    else if bool_decide (action = "retrieve")
    then Some ["engineer"; "metallurgist"; "admin"]
    else if bool_decide (action = "create") then Some ["metallurgist"; "admin"]
    else if bool_decide (action = "update") then Some ["metallurgist"; "admin"]
    else if bool_decide (action = "partial_update") then Some ["metallurgist"; "admin"]
    else if bool_decide (action = "destroy") then Some ["admin"]
    else None.
Proof.
  unfold RoleBasedModelViewSet.role_permissions.
  repeat case_bool_decide; subst; try reflexivity.
  rewrite !lookup_insert_ne by congruence.
  by apply lookup_singleton_ne.
Qed.

Lemma model_view_set_check (classes : list (Request → ViewAttrs → result bool))
    (view : ViewAttrs) (action : option string) (request : Request) (u : User) :
  user request = Authenticated u →
  views.check_permissions classes view request = Ok true →
  RoleBasedModelViewSet.check_permissions classes view action request
  = Ok (let a := RoleBasedModelViewSet.action_or_list action in
        if contains (dict_get RoleBasedModelViewSet.role_permissions a ["admin"])
             (role u)
        then RoleBasedModelViewSet.Granted
        else RoleBasedModelViewSet.Denied
               (Some ("Role " +:+ role u +:+ " not allowed for action " +:+ a))).
Proof.
  intros Hu Hsuper. unfold RoleBasedModelViewSet.check_permissions.
  rewrite Hsuper, Hu. cbn -[contains dict_get RoleBasedModelViewSet.action_or_list].
  by destruct (contains _ (role u)).
Qed.

(** X13.  In the role-based view set, once the inherited permission check
    passes for an authenticated user: an admin may perform every action;
    an action the table does not list is open to admins only; no action at
    all counts as [list]; and the table is graded: whoever may [destroy]
    may [create], [update] and [partial_update], and whoever may do one of
    those may [list] and [retrieve]. *)
Theorem model_view_set_actions_are_graded
    (classes : list (Request → ViewAttrs → result bool)) (view : ViewAttrs)
    (request : Request) (u : User) :
  user request = Authenticated u →
  views.check_permissions classes view request = Ok true →
  let check := fun action =>
    RoleBasedModelViewSet.check_permissions classes view action request in
  let Granted := Ok RoleBasedModelViewSet.Granted in
  (role u = "admin" → ∀ action, check action = Granted)
  ∧ (∀ action,
       RoleBasedModelViewSet.role_permissions !! action = None → action ≠ "" →
       (check (Some action) = Granted ↔ role u = "admin"))
  ∧ check None = check (Some "list")
  ∧ check (Some "") = check (Some "list")
  ∧ (check (Some "destroy") = Granted →
     check (Some "create") = Granted
     ∧ check (Some "update") = Granted
     ∧ check (Some "partial_update") = Granted)
  ∧ (check (Some "create") = Granted ∨ check (Some "update") = Granted
     ∨ check (Some "partial_update") = Granted →
     check (Some "list") = Granted ∧ check (Some "retrieve") = Granted).
Proof.
  intros Hu Hsuper check Granted. subst check Granted. cbv beta.
  assert (∀ action,
            RoleBasedModelViewSet.check_permissions classes view action request
            = Ok RoleBasedModelViewSet.Granted
            ↔ contains
                (dict_get RoleBasedModelViewSet.role_permissions
                   (RoleBasedModelViewSet.action_or_list action) ["admin"])
                (role u) = true) as Hiff.
  { intros action. rewrite (model_view_set_check classes view action request u Hu Hsuper).
    cbv zeta. destruct (contains _ (role u)); split; congruence. }
  split; [| split; [| split; [| split; [| split] ] ] ].
  - intros Hadmin action. apply Hiff.
    unfold dict_get. rewrite role_permissions_lookup, Hadmin.
    repeat case_bool_decide; reflexivity.
  - intros action Hnone Hne. rewrite Hiff.
    assert (RoleBasedModelViewSet.action_or_list (Some action) = action) as ->.
    { destruct action; [congruence | reflexivity]. }
    unfold dict_get. rewrite Hnone, contains_cons, contains_nil, orb_false_r.
    apply bool_decide_eq_true.
  - reflexivity.
  - reflexivity.
  - rewrite !Hiff.
    change (contains ["admin"] (role u) = true →
            contains ["metallurgist"; "admin"] (role u) = true
            ∧ contains ["metallurgist"; "admin"] (role u) = true
            ∧ contains ["metallurgist"; "admin"] (role u) = true).
    rewrite !contains_cons, contains_nil.
    intros Hd. rewrite orb_false_r in Hd. rewrite Hd, !orb_true_r. done.
  - rewrite !Hiff.
    change (contains ["metallurgist"; "admin"] (role u) = true
            ∨ contains ["metallurgist"; "admin"] (role u) = true
            ∨ contains ["metallurgist"; "admin"] (role u) = true →
            contains ["engineer"; "metallurgist"; "admin"] (role u) = true
            ∧ contains ["engineer"; "metallurgist"; "admin"] (role u) = true).
    rewrite (contains_cons _ "engineer").
    intros [Hc | [Hc | Hc]]; rewrite Hc, !orb_true_r; done.
Qed.

Lemma model_view_set_actions_are_graded_witness :
  let request := request_by "POST" (Authenticated (user_with_role 1 "root" "admin")) in
  RoleBasedModelViewSet.check_permissions [views.IsAuthenticated_has_permission]
    (mkViewAttrs None None) (Some "archive") request
  = Ok RoleBasedModelViewSet.Granted.
Proof.
  intros request.
  refine (proj1 (model_view_set_actions_are_graded
                   [views.IsAuthenticated_has_permission] (mkViewAttrs None None)
                   request (user_with_role 1 "root" "admin") eq_refl eq_refl)
            eq_refl (Some "archive")).
Defined.

Example engineer_is_refused_creation :
  RoleBasedModelViewSet.check_permissions [views.IsAuthenticated_has_permission]
    (mkViewAttrs None None) (Some "create")
    (request_by "POST" (Authenticated (user_with_role 7 "eve" "engineer")))
  = Ok (RoleBasedModelViewSet.Denied
          (Some "Role engineer not allowed for action create")).
Proof. vm_compute. reflexivity. Qed.

Example anonymous_is_refused_by_the_view_set :
  RoleBasedModelViewSet.check_permissions [views.AllowAny_has_permission]
    (mkViewAttrs None None) None (request_by "GET" AnonymousUser)
  = Ok (RoleBasedModelViewSet.Denied (Some "Authentication required")).
Proof. reflexivity. Qed.

(** ** The permission test endpoint *)

(** X14.  The test endpoint answers every authenticated user, whatever
    the role, that user management, dataset upload, AI-model management
    and report viewing are permitted: it asks the permission classes about
    its own GET request.  The same classes refuse the same user's writes
    when the role does not allow them. *)
Theorem test_endpoint_reports_writes_as_permitted
    `{Framework} (u : User) (p : string) (d : gmap string string)
    (kwargs : Kwargs) (w : World) :
  let request := mkRequest "GET" p (Authenticated u) d in
  let write := mkRequest "POST" p (Authenticated u) d in
  (∃ user_part capabilities,
     test_permissions_view.test_permissions request kwargs w
     = (Ok (Response
              [ ("user", user_part);
                ("permissions",
                 JDict [ ("can_manage_users", JBool true);
                         ("can_upload_datasets", JBool true);
                         ("can_manage_ai_models", JBool true);
                         ("can_view_reports", JBool true);
                         ("is_admin", JBool (bool_decide (role u = "admin")));
                         ("is_engineer_or_above",
                          JBool (contains ["engineer"; "metallurgist"; "admin"]
                                   (role u))) ]);
                ("capabilities", capabilities) ] HTTP_200_OK), w))
  ∧ (role u ≠ "admin" →
     CanManageUsers.has_permission write views.no_view_attrs = Ok false)
  ∧ (role u ≠ "admin" → role u ≠ "metallurgist" →
     CanUploadDatasets.has_permission write views.no_view_attrs = Ok false
     ∧ CanManageAIModels.has_permission write views.no_view_attrs = Ok false).
Proof.
  intros request write. split; [| split].
  - do 2 eexists. reflexivity.
  - intros Hadmin. run_permission. cbn.
    by rewrite bool_decide_eq_false_2.
  - intros Hadmin Hmet. run_permission. cbn -[contains].
    rewrite !contains_cons, contains_nil.
    by rewrite !bool_decide_eq_false_2.
Qed.

Example test_endpoint_for_an_engineer :
  ∃ user_part capabilities,
    @test_permissions_view.test_permissions plain_framework
      (request_by "GET" (Authenticated (user_with_role 7 "eve" "engineer")))
      ∅ empty_world
    = (Ok (Response
             [ ("user", user_part);
               ("permissions",
                JDict [ ("can_manage_users", JBool true);
                        ("can_upload_datasets", JBool true);
                        ("can_manage_ai_models", JBool true);
                        ("can_view_reports", JBool true);
                        ("is_admin", JBool false);
                        ("is_engineer_or_above", JBool true) ]);
               ("capabilities", capabilities) ] HTTP_200_OK), empty_world).
Proof. do 2 eexists. vm_compute. reflexivity. Qed.

(** ** Ownership, continued *)

Lemma owner_is_stamped_on_create_aux
    (validated_data : Resource) (u : User) (m p : string)
    (d : gmap string string) (w : World) :
  ∃ row,
    OwnershipMixin.perform_create validated_data
      (mkRequest m p (Authenticated u) d) w
    = (Ok row, mkWorld (users w) (objects w ++ [row]) (permissions_log w))
    ∧ row !! "created_by" = Some (VRef (id u)).
Proof.
  exists ({[ "created_by" := VRef (id u) ]} ∪ validated_data).
  split; [reflexivity |].
  apply lookup_union_Some_l. apply lookup_singleton_eq.
Qed.

(** X15.  What a user creates through the mixin, the user finds in the
    listing afterwards; another user who is not an admin does not. *)
Theorem created_row_is_listed_for_its_creator
    (validated_data : Resource) (u : User) (m p : string)
    (d : gmap string string) (w : World) :
  let P := mkRequest m p (Authenticated u) d in
  ∃ row w',
    OwnershipMixin.perform_create validated_data P w = (Ok row, w')
    ∧ (∃ visible,
         OwnershipMixin.get_queryset (objects w') P = Ok visible ∧ row ∈ visible)
    ∧ (∀ other m' p' d' visible,
         role other ≠ "admin" →
         id other ≠ id u →
         OwnershipMixin.get_queryset (objects w')
           (mkRequest m' p' (Authenticated other) d') = Ok visible →
         row ∉ visible).
Proof.
  intros P.
  destruct (owner_is_stamped_on_create_aux validated_data u m p d w)
    as (row & Hrun & Howner).
  exists row, (mkWorld (users w) (objects w ++ [row]) (permissions_log w)).
  split; [exact Hrun |]. cbn [objects]. split.
  - rewrite (get_queryset_authenticated _ P u eq_refl).
    eexists. split; [reflexivity |].
    case_bool_decide.
    + rewrite elem_of_app, !elem_of_cons. tauto.
    + apply list_elem_of_filter. split; [done |].
      rewrite elem_of_app, !elem_of_cons. tauto.
  - intros other m' p' d' visible Hrole Hid.
    rewrite (get_queryset_authenticated _
               (mkRequest m' p' (Authenticated other) d') other eq_refl).
    rewrite bool_decide_eq_false_2 by done.
    intros [= <-]. rewrite list_elem_of_filter. intros [Hown _].
    rewrite Howner in Hown. congruence.
Qed.

(** X16.  Listings never invent or reorder rows and never overlap: every
    listing is a sublist of the collection, an admin's listing contains
    every other listing, and two users who are not admins and differ in
    primary key share no row. *)
Theorem listings_are_disjoint_sublists
    (C : list Resource) (request1 request2 : Request) (u1 u2 : User)
    (visible1 visible2 : list Resource) :
  user request1 = Authenticated u1 →
  user request2 = Authenticated u2 →
  OwnershipMixin.get_queryset C request1 = Ok visible1 →
  OwnershipMixin.get_queryset C request2 = Ok visible2 →
  visible1 `sublist_of` C
  ∧ (role u2 = "admin" → visible1 `sublist_of` visible2)
  ∧ (role u1 ≠ "admin" → role u2 ≠ "admin" → id u1 ≠ id u2 →
     ∀ X, X ∈ visible1 → X ∉ visible2).
Proof.
  intros Hu1 Hu2.
  rewrite (get_queryset_authenticated C request1 u1 Hu1).
  rewrite (get_queryset_authenticated C request2 u2 Hu2).
  intros [= <-] [= <-].
  assert ((if bool_decide (role u1 = "admin") then C
           else filter (fun row => row !! "created_by" = Some (VRef (id u1))) C)
          `sublist_of` C) as Hsub.
  { case_bool_decide; [done | apply sublist_filter]. }
  split; [exact Hsub |]. split.
  - intros Hadmin. by rewrite (bool_decide_eq_true_2 _ Hadmin).
  - intros H1 H2 Hid X.
    rewrite !bool_decide_eq_false_2 by done.
    rewrite !list_elem_of_filter. intros [Hx1 _] [Hx2 _]. congruence.
Qed.

Lemma listings_are_disjoint_sublists_witness :
  let mine : Resource := {[ "title" := VStr "slag"; "created_by" := VRef 7 ]} in
  let theirs : Resource := {[ "title" := VStr "ore"; "created_by" := VRef 8 ]} in
  let eve := request_by "GET" (Authenticated (user_with_role 7 "eve" "engineer")) in
  let max := request_by "GET" (Authenticated (user_with_role 8 "max" "metallurgist")) in
  [mine] `sublist_of` [mine; theirs]
  ∧ ("metallurgist" = "admin" → [mine] `sublist_of` [theirs])
  ∧ ("engineer" ≠ "admin" → "metallurgist" ≠ "admin" → 7 ≠ 8 →
     ∀ X, X ∈ [mine] → X ∉ [theirs]).
Proof.
  intros mine theirs eve max.
  apply (listings_are_disjoint_sublists [mine; theirs] eve max
           (user_with_role 7 "eve" "engineer")
           (user_with_role 8 "max" "metallurgist") [mine] [theirs]
           eq_refl eq_refl); vm_compute; reflexivity.
Defined.

(** ** Registration, continued *)

Local Open Scope list_scope.

Section validation.

Context `{Framework}.

Lemma gather_app (fs gs : list (string * serializers.field_result)) :
  serializers.gather (fs ++ gs)
  = ((serializers.gather fs).1 ++ (serializers.gather gs).1,
     (serializers.gather fs).2 ∪ (serializers.gather gs).2).
Proof.
  induction fs as [| [name fr] fs IH].
  - cbn. destruct (serializers.gather gs) as [errors attrs]. cbn.
    by rewrite (left_id_L ∅ (∪)).
  - cbn. rewrite IH.
    destruct (serializers.gather fs) as [errors attrs].
    destruct (serializers.gather gs) as [errors' attrs'].
    destruct fr; cbn; try reflexivity.
    by rewrite insert_union_l.
Qed.

(** A refused field is reported. *)
Lemma gather_invalid (fields : list (string * serializers.field_result))
    (name msg : string) :
  (name, serializers.Invalid msg) ∈ fields →
  (name, msg) ∈ (serializers.gather fields).1.
Proof.
  induction fields as [| [n fr] fields IH]; intros Hin.
  - by apply elem_of_nil in Hin.
  - apply elem_of_cons in Hin as [[= <- <-] | Hin]; cbn.
    + destruct (serializers.gather fields). cbn. left.
    + specialize (IH Hin). destruct (serializers.gather fields) as [errors attrs].
      destruct fr; cbn in *; try done. by right.
Qed.

(** A field that passed, under a name no other field has, is in the
    validated data. *)
Lemma gather_validated_lookup (fields : list (string * serializers.field_result))
    (name value : string) :
  NoDup (fst <$> fields) →
  (name, serializers.Validated value) ∈ fields →
  (serializers.gather fields).2 !! name = Some value.
Proof.
  induction fields as [| [n fr] fields IH]; intros Hnd Hin.
  - by apply elem_of_nil in Hin.
  - rewrite fmap_cons in Hnd. apply NoDup_cons in Hnd as [Hn Hnd]. cbn in Hn.
    apply elem_of_cons in Hin as [[= <- <-] | Hin]; cbn.
    + destruct (serializers.gather fields). cbn. apply lookup_insert_eq.
    + assert (n ≠ name) as Hne.
      { intros ->. apply Hn. apply list_elem_of_fmap. by exists (name, serializers.Validated value). }
      specialize (IH Hnd Hin). destruct (serializers.gather fields) as [errors attrs].
      destruct fr; cbn in *; try done. by rewrite lookup_insert_ne.
Qed.

Lemma to_internal_value_Ok (fields : list (string * serializers.field_result))
    (attrs : gmap string string) :
  serializers.to_internal_value fields = Ok attrs →
  (serializers.gather fields).1 = [] ∧ (serializers.gather fields).2 = attrs.
Proof.
  unfold serializers.to_internal_value.
  destruct (serializers.gather fields) as [[| e errors] attrs0]; [| discriminate].
  by intros [= <-].
Qed.

Lemma to_internal_value_refused (fields : list (string * serializers.field_result))
    (name msg : string) :
  (name, serializers.Invalid msg) ∈ fields →
  ∃ errors, serializers.to_internal_value fields = Raise (ValidationError errors)
            ∧ (name, msg) ∈ errors.
Proof.
  intros Hin. apply gather_invalid in Hin.
  unfold serializers.to_internal_value.
  destruct (serializers.gather fields) as [[| e errors] attrs]; cbn in *.
  - by apply elem_of_nil in Hin.
  - eauto.
Qed.

(** The role in the validated data is the role that was sent, and it is
    one of the choices. *)
Lemma validated_role (fs : list (string * serializers.field_result))
    (raw : option string) (attrs : gmap string string) :
  "role" ∉ (fst <$> fs) →
  serializers.to_internal_value (fs ++ [("role", serializers.role_field raw)])
  = Ok attrs →
  attrs !! "role" = raw ∧ (∀ r, raw = Some r → r ∈ ROLES).
Proof.
  intros Hfs Hok. apply to_internal_value_Ok in Hok as [Herr <-].
  rewrite gather_app in *. cbn [fst snd] in *.
  pose proof (gather_lookup_None fs "role" Hfs) as Hnone.
  unfold serializers.role_field in *.
  destruct raw as [x |].
  - destruct (contains ROLES x) eqn:Hx; cbn [serializers.gather fst snd] in *.
    + rewrite lookup_union_r by done. rewrite insert_empty, lookup_singleton_eq.
      split; [done |]. intros r [= <-]. by apply contains_spec.
    + by apply app_nil in Herr as [_ ?].
  - cbn [serializers.gather fst snd]. rewrite (right_id_L ∅ (∪)).
    split; [done | discriminate].
Qed.

Lemma RegisterSerializer_validated_role (d : gmap string string) (us : list User)
    (attrs : gmap string string) :
  serializers.RegisterSerializer_run_validation d us = Ok attrs →
  attrs !! "role" = d !! "role" ∧ (∀ r, d !! "role" = Some r → r ∈ ROLES).
Proof.
  unfold serializers.RegisterSerializer_run_validation,
    serializers.RegisterSerializer_fields.
  match goal with
  | |- context [ ?a :: ?b :: ?c :: ?e :: [("role", ?x)] ] =>
      change (a :: b :: c :: e :: [("role", x)])
        with (([a; b; c; e] ++ [("role", x)])%list);
      set (fs := [a; b; c; e])
  end.
  assert ("role" ∉ (fst <$> fs)) as Hfs.
  { subst fs. cbn. rewrite !not_elem_of_cons. repeat split; try done.
    apply not_elem_of_nil. }
  destruct (serializers.to_internal_value _) as [attrs0 | e] eqn:Hint;
    [| discriminate].
  cbn. unfold serializers.RegisterSerializer_validate, dict_getitem.
  destruct (attrs0 !! "password"); cbn; [| discriminate].
  destruct (attrs0 !! "password2"); cbn; [| discriminate].
  destruct (negb _); [discriminate |]. intros [= <-].
  exact (validated_role fs _ attrs0 Hfs Hint).
Qed.

Lemma UserRegistrationSerializer_validated_role (d : gmap string string)
    (us : list User) (attrs : gmap string string) :
  serializers.UserRegistrationSerializer_run_validation d us = Ok attrs →
  attrs !! "role" = d !! "role" ∧ (∀ r, d !! "role" = Some r → r ∈ ROLES).
Proof.
  unfold serializers.UserRegistrationSerializer_run_validation,
    serializers.UserRegistrationSerializer_fields.
  match goal with
  | |- context [ ?a :: ?b :: ?c :: ?e :: ?f :: ?g :: [("role", ?x)] ] =>
      change (a :: b :: c :: e :: f :: g :: [("role", x)])
        with (([a; b; c; e; f; g] ++ [("role", x)])%list);
      set (fs := [a; b; c; e; f; g])
  end.
  assert ("role" ∉ (fst <$> fs)) as Hfs.
  { subst fs. cbn. rewrite !not_elem_of_cons. repeat split; try done.
    apply not_elem_of_nil. }
  destruct (serializers.to_internal_value _) as [attrs0 | e] eqn:Hint;
    [| discriminate].
  cbn. unfold serializers.UserRegistrationSerializer_validate, dict_getitem.
  destruct (attrs0 !! "password"); cbn; [| discriminate].
  destruct (attrs0 !! "password_confirm"); cbn; [| discriminate].
  destruct (negb _); [discriminate |]. intros [= <-].
  exact (validated_role fs _ attrs0 Hfs Hint).
Qed.

(** [create_user] either raises and stores nothing, or appends one row
    whose role is the one given, [engineer] when none is. *)
Lemma create_user_outcome (vd : gmap string string) (w : World) :
  (∃ e, serializers.create_user vd w = (Raise e, w))
  ∨ (∃ u, serializers.create_user vd w
          = (Ok u, mkWorld (users w ++ [u]) (objects w) (permissions_log w))
          ∧ role u = default "engineer" (vd !! "role")).
Proof.
  unfold serializers.create_user, bindM, lift, raise, dict_getitem, dict_get.
  destruct (vd !! "username") as [name |]; [| left; eauto].
  case_bool_decide; [left; eauto |].
  right. eexists. split; [reflexivity |]. cbn.
  by destruct (vd !! "role").
Qed.

End validation.

Section registration_outcomes.

Context `{Framework}.

Lemma handle_exception_world (m : M HttpResponse) (w : World) :
  (views.handle_exception m w).2 = (m w).2
  ∧ (∀ response, (m w).1 = Ok response →
       (views.handle_exception m w).1 = Ok response).
Proof.
  unfold views.handle_exception.
  destruct (m w) as [[response | e] w']; [by split |].
  destruct e; cbn; split; try done.
Qed.

Lemma default_role_closed (raw : option string) :
  (∀ r, raw = Some r → r ∈ ROLES) → default "engineer" raw ∈ ROLES.
Proof.
  intros Hraw. destruct raw as [r |]; cbn; [by apply Hraw |].
  apply elem_of_ROLES. by left.
Qed.

Lemma RegisterView_post_registered (request : Request) (kwargs : Kwargs) (w : World) :
  registered request w (views.RegisterView_post request kwargs w).
Proof.
  unfold registered, views.RegisterView_post, bindM, get_world, lift, ret.
  destruct (serializers.RegisterSerializer_run_validation (data request) (users w))
    as [attrs | e] eqn:Hval; [| cbn; auto].
  apply RegisterSerializer_validated_role in Hval as [Hrole Hclosed].
  unfold serializers.RegisterSerializer_create, bindM, lift, dict_getitem.
  destruct (attrs !! "password2"); [| cbn; auto].
  destruct (create_user_outcome (delete "password2" attrs) w)
    as [[e ->] | (u & -> & Hu)]; [cbn; auto |].
  cbn. split; [done |]. right. exists u. eexists. split; [done |].
  split; [done |].
  rewrite lookup_delete_ne, Hrole in Hu by done.
  split; [done |]. rewrite Hu. by apply default_role_closed.
Qed.

Lemma register_func_registered (request : Request) (kwargs : Kwargs) (w : World) :
  registered request w (views.register_func request kwargs w).
Proof.
  unfold registered, views.register_func, bindM, get_world, lift, ret, raise.
  destruct (serializers.UserRegistrationSerializer_run_validation
              (data request) (users w)) as [attrs | e] eqn:Hval;
    [| destruct e; cbn; auto].
  apply UserRegistrationSerializer_validated_role in Hval as [Hrole Hclosed].
  unfold serializers.UserRegistrationSerializer_create.
  destruct (create_user_outcome (delete "password_confirm" attrs) w)
    as [[e ->] | (u & -> & Hu)]; [cbn; auto |].
  cbn. split; [done |]. right. exists u. eexists. split; [done |].
  split; [done |].
  rewrite lookup_delete_ne, Hrole in Hu by done.
  split; [done |]. rewrite Hu. by apply default_role_closed.
Qed.

End registration_outcomes.

Section registration_properties.

Context `{Framework}.

Lemma AllowAny_dispatch (view : ViewAttrs) (handlers : string → option views.Handler)
    (request : Request) (kwargs : Kwargs) (w : World) :
  views.APIView_dispatch [views.AllowAny_has_permission] view handlers request kwargs w
  = views.handle_exception
      (match handlers (method request) with
       | Some handler => handler request kwargs
       | None =>
           if bool_decide (method request = "OPTIONS")
           then ret (options_response request)
           else ret (Response [("detail", JStr "Method not allowed.")] 405)
       end) w.
Proof. reflexivity. Qed.

Lemma registered_unchanged (request : Request) (w : World)
    (outcome : result HttpResponse * World) :
  outcome.2 = w → registered request w outcome.
Proof. intros Hw. subst w. split; [done | by left]. Qed.

Lemma RegisterView_registered (request : Request) (kwargs : Kwargs) (w : World) :
  registered request w (views.RegisterView request kwargs w).
Proof.
  unfold views.RegisterView. rewrite AllowAny_dispatch.
  case_bool_decide as Hpost;
    match goal with
    | |- registered _ _ (views.handle_exception ?m w) =>
        pose proof (handle_exception_world m w) as [Hw Hok]
    end.
  - pose proof (RegisterView_post_registered request kwargs w) as [Hobj Husers].
    unfold registered. rewrite Hw. split; [done |].
    destruct Husers as [? | (u & payload & ? & Hres & ?)]; [by left |].
    right. exists u, payload. split; [done |]. split; [by apply Hok | done].
  - apply registered_unchanged. rewrite Hw. by case_bool_decide.
Qed.

Lemma register_registered (request : Request) (kwargs : Kwargs) (w : World) :
  registered request w (views.register request kwargs w).
Proof.
  unfold views.register. rewrite AllowAny_dispatch.
  case_bool_decide as Hpost;
    match goal with
    | |- registered _ _ (views.handle_exception ?m w) =>
        pose proof (handle_exception_world m w) as [Hw Hok]
    end.
  - set (before := mkWorld (users w) (objects w)
                     (permissions_log w ++ [permission_check_record "register" request])).
    pose proof (register_func_registered request kwargs before) as [Hobj Husers].
    pose proof (log_permission_check_request "register" views.register_func
                  request kwargs w) as Hlog.
    fold before in Hlog.
    unfold registered. rewrite Hw.
    destruct (views.register_func request kwargs before) as [[response | e] w2];
      rewrite Hlog in *; cbn [fst snd] in *.
    + split; [by case_bool_decide |].
      destruct Husers as [Hsame | (u & payload & Hadd & Hres & Hrole)].
      * left. by case_bool_decide.
      * right. exists u, payload. split; [by case_bool_decide |].
        split; [| done]. apply Hok. done.
    + split; [done |]. destruct Husers as [? | (u & payload & _ & ? & _)]; [by left | done].
  - apply registered_unchanged. rewrite Hw. by case_bool_decide.
Qed.

End registration_properties.

(** X17.  Whatever is sent to either registration endpoint, the owned rows
    stay as they are and the user table either stays as it is or gains one
    row at its end, with the answer 201; the new user's role is the role
    sent, [engineer] when none was sent, and in both cases a role of the
    closed set.  So registration keeps every stored role inside the closed
    set. *)
Theorem registration_adds_one_user_of_a_known_role
    `{Framework} (request : Request) (kwargs : Kwargs) (w : World) :
  registered request w (views.RegisterView request kwargs w)
  ∧ registered request w (views.register request kwargs w)
  ∧ (Forall (fun u => role u ∈ ROLES) (users w) →
     Forall (fun u => role u ∈ ROLES) (users (views.RegisterView request kwargs w).2)
     ∧ Forall (fun u => role u ∈ ROLES) (users (views.register request kwargs w).2)).
Proof.
  pose proof (RegisterView_registered request kwargs w) as Hclass.
  pose proof (register_registered request kwargs w) as Hfunc.
  split; [done |]. split; [done |].
  intros Hall.
  destruct Hclass as [_ [-> | (u & ? & -> & _ & _ & Hu)]],
           Hfunc as [_ [-> | (u' & ? & -> & _ & _ & Hu')]];
    rewrite ?Forall_app, ?Forall_singleton; done.
Qed.

Example registration_without_a_role :
  users (@views.register plain_framework
           (mkRequest "POST" "/api/users/register-alt/" AnonymousUser
              (delete "role" (sign_up "mallory" "admin")))
           ∅ empty_world).2
  = [mkUser 1 "mallory" "" "hash:correct horse" "" "" "engineer"].
Proof. vm_compute. reflexivity. Qed.

Section refusals.

Context `{Framework}.

Lemma to_internal_value_raises (fields : list (string * serializers.field_result))
    (e : exn) :
  serializers.to_internal_value fields = Raise e →
  ∃ errors, e = ValidationError errors.
Proof.
  unfold serializers.to_internal_value.
  destruct (serializers.gather fields) as [[| ? ?] ?]; [discriminate |].
  intros [= <-]. eauto.
Qed.

Lemma RegisterSerializer_names (d : gmap string string) (us : list User) :
  NoDup (fst <$> serializers.RegisterSerializer_fields d us).
Proof.
  cbn. repeat (apply NoDup_cons; split;
               [rewrite ?not_elem_of_cons; repeat split; try done;
                apply not_elem_of_nil |]).
  apply NoDup_nil_2.
Qed.

Lemma UserRegistrationSerializer_names (d : gmap string string) (us : list User) :
  NoDup (fst <$> serializers.UserRegistrationSerializer_fields d us).
Proof.
  cbn. repeat (apply NoDup_cons; split;
               [rewrite ?not_elem_of_cons; repeat split; try done;
                apply not_elem_of_nil |]).
  apply NoDup_nil_2.
Qed.

(** Validation with two different passwords fails, at the fields or at
    the comparison. *)
Lemma RegisterSerializer_mismatch (d : gmap string string) (us : list User)
    (p1 p2 c1 c2 : string) :
  d !! "password" = Some p1 → d !! "password2" = Some p2 →
  CharField_run p1 = Some c1 → CharField_run p2 = Some c2 → c1 ≠ c2 →
  ∃ errors, serializers.RegisterSerializer_run_validation d us
            = Raise (ValidationError errors).
Proof.
  intros Hp1 Hp2 Hc1 Hc2 Hne.
  unfold serializers.RegisterSerializer_run_validation.
  destruct (serializers.to_internal_value _) as [attrs | e] eqn:Hint; cbn.
  { pose proof (RegisterSerializer_names d us) as Hnd.
    apply to_internal_value_Ok in Hint as [Herr <-].
    assert (∀ n m, (n, serializers.Invalid m)
                   ∈ serializers.RegisterSerializer_fields d us → False) as Hvalid.
    { intros n m Hin. apply gather_invalid in Hin. rewrite Herr in Hin.
      by apply elem_of_nil in Hin. }
    unfold serializers.RegisterSerializer_validate, dict_getitem.
    unfold serializers.RegisterSerializer_fields in *.
    rewrite Hp1, Hp2 in *. unfold serializers.run_required in *.
    rewrite Hc1, Hc2 in *. cbn [serializers.validator] in *.
    destruct (validate_password c1).
    - rewrite (gather_validated_lookup _ "password" c1 Hnd)
        by (rewrite !elem_of_cons; tauto).
      rewrite (gather_validated_lookup _ "password2" c2 Hnd)
        by (rewrite !elem_of_cons; tauto).
      cbn. apply String.eqb_neq in Hne. rewrite Hne. cbn. eauto.
    - exfalso. eapply (Hvalid "password"). rewrite !elem_of_cons. tauto. }
  apply to_internal_value_raises in Hint as [errors ->]. eauto.
Qed.

Lemma UserRegistrationSerializer_mismatch (d : gmap string string) (us : list User)
    (p1 p2 c1 c2 : string) :
  d !! "password" = Some p1 → d !! "password_confirm" = Some p2 →
  CharField_run p1 = Some c1 → CharField_run p2 = Some c2 → c1 ≠ c2 →
  ∃ errors, serializers.UserRegistrationSerializer_run_validation d us
            = Raise (ValidationError errors).
Proof.
  intros Hp1 Hp2 Hc1 Hc2 Hne.
  unfold serializers.UserRegistrationSerializer_run_validation.
  destruct (serializers.to_internal_value _) as [attrs | e] eqn:Hint; cbn.
  { pose proof (UserRegistrationSerializer_names d us) as Hnd.
    apply to_internal_value_Ok in Hint as [Herr <-].
    assert (∀ n m, (n, serializers.Invalid m)
                   ∈ serializers.UserRegistrationSerializer_fields d us → False)
      as Hvalid.
    { intros n m Hin. apply gather_invalid in Hin. rewrite Herr in Hin.
      by apply elem_of_nil in Hin. }
    unfold serializers.UserRegistrationSerializer_validate, dict_getitem.
    unfold serializers.UserRegistrationSerializer_fields in *.
    rewrite Hp1, Hp2 in *. unfold serializers.run_required in *.
    rewrite Hc1, Hc2 in *. cbn [serializers.validator] in *.
    destruct (validate_password c1); cbn [serializers.validator] in *;
      [destruct (8 <=? Z.of_nat (String.length c1)) |].
    - rewrite (gather_validated_lookup _ "password" c1 Hnd)
        by (rewrite !elem_of_cons; tauto).
      rewrite (gather_validated_lookup _ "password_confirm" c2 Hnd)
        by (rewrite !elem_of_cons; tauto).
      cbn. apply String.eqb_neq in Hne. rewrite Hne. cbn. eauto.
    - exfalso. eapply (Hvalid "password"). rewrite !elem_of_cons. tauto.
    - exfalso. eapply (Hvalid "password"). rewrite !elem_of_cons. tauto. }
  apply to_internal_value_raises in Hint as [errors ->]. eauto.
Qed.

(** A user name that is taken is refused at the field. *)
Lemma username_field_taken (us : list User) (n c : string) (u : User) :
  UsernameField_run n = Some c → u ∈ us → username u = c →
  serializers.username_field us (Some n)
  = serializers.Invalid "A user with that username already exists.".
Proof.
  intros Hrun Hin Hname.
  unfold serializers.username_field, serializers.run_required. rewrite Hrun. cbn.
  assert (existsb (fun x => (username x =? c)%string) us = true) as ->; [| done].
  apply existsb_exists. exists u. split; [by apply list_elem_of_In |].
  by apply String.eqb_eq.
Qed.

End refusals.

(** X18.  A registration whose two passwords differ is refused with 400
    on both endpoints and stores no user, whatever else was sent. *)
Theorem mismatched_passwords_are_refused
    `{Framework} (request : Request) (kwargs : Kwargs) (w : World)
    (p1 p2 c1 c2 : string) :
  method request = "POST" →
  data request !! "password" = Some p1 →
  CharField_run p1 = Some c1 →
  CharField_run p2 = Some c2 →
  c1 ≠ c2 →
  (data request !! "password2" = Some p2 →
   ∃ errors,
     views.RegisterView request kwargs w
     = (Ok (Response errors HTTP_400_BAD_REQUEST), w))
  ∧ (data request !! "password_confirm" = Some p2 →
     ∃ errors w',
       views.register request kwargs w
       = (Ok (Response errors HTTP_400_BAD_REQUEST), w')
       ∧ users w' = users w ∧ objects w' = objects w).
Proof.
  intros Hm Hp1 Hc1 Hc2 Hne. split; intros Hp2.
  - rewrite (RegisterView_POST request kwargs w Hm).
    destruct (RegisterSerializer_mismatch (data request) (users w) p1 p2 c1 c2
                Hp1 Hp2 Hc1 Hc2 Hne) as [errors Hval].
    unfold views.handle_exception, views.RegisterView_post, bindM, get_world, lift.
    rewrite Hval. eauto.
  - rewrite (register_POST request kwargs w Hm).
    unfold views.handle_exception. rewrite log_permission_check_request.
    destruct (UserRegistrationSerializer_mismatch (data request) (users w)
                p1 p2 c1 c2 Hp1 Hp2 Hc1 Hc2 Hne) as [errors Hval].
    unfold views.register_func, bindM, get_world, lift, ret. cbn [users].
    rewrite Hval. cbn. eauto.
Qed.

Lemma mismatched_passwords_are_refused_witness :
  let request :=
    mkRequest "POST" "/api/users/register/" AnonymousUser
      (<["password2" := "correct house"]> (sign_up "mallory" "admin")) in
  ∃ errors,
    @views.RegisterView plain_framework request ∅ empty_world
    = (Ok (Response errors HTTP_400_BAD_REQUEST), empty_world).
Proof.
  intros request.
  refine (proj1 (@mismatched_passwords_are_refused plain_framework request ∅
                   empty_world "correct horse" "correct house" "correct horse"
                   "correct house" eq_refl _ eq_refl eq_refl _) _).
  - vm_compute. reflexivity.
  - discriminate.
  - vm_compute. reflexivity.
Defined.

(** X19.  A registration under a user name that an existing user has is
    refused with 400 on both endpoints, names the [username] field in its
    errors, and stores no user. *)
Theorem taken_username_is_refused
    `{Framework} (request : Request) (kwargs : Kwargs) (w : World)
    (n c : string) (u : User) :
  method request = "POST" →
  data request !! "username" = Some n →
  UsernameField_run n = Some c →
  u ∈ users w →
  username u = c →
  (∃ errors,
     views.RegisterView request kwargs w
     = (Ok (Response (views.errors_payload errors) HTTP_400_BAD_REQUEST), w)
     ∧ ("username", "A user with that username already exists.") ∈ errors)
  ∧ (∃ errors w',
       views.register request kwargs w
       = (Ok (Response (views.errors_payload errors) HTTP_400_BAD_REQUEST), w')
       ∧ ("username", "A user with that username already exists.") ∈ errors
       ∧ users w' = users w ∧ objects w' = objects w).
Proof.
  intros Hm Hn Hrun Hin Hname.
  pose proof (username_field_taken (users w) n c u Hrun Hin Hname) as Hfield.
  split.
  - rewrite (RegisterView_POST request kwargs w Hm).
    destruct (to_internal_value_refused
                (serializers.RegisterSerializer_fields (data request) (users w))
                "username" "A user with that username already exists.")
      as (errors & Hval & Herr).
    { unfold serializers.RegisterSerializer_fields. rewrite Hn, Hfield. left. }
    unfold views.handle_exception, views.RegisterView_post,
      serializers.RegisterSerializer_run_validation, bindM, get_world, lift.
    rewrite Hval. cbn. eauto.
  - rewrite (register_POST request kwargs w Hm).
    unfold views.handle_exception. rewrite log_permission_check_request.
    destruct (to_internal_value_refused
                (serializers.UserRegistrationSerializer_fields (data request) (users w))
                "username" "A user with that username already exists.")
      as (errors & Hval & Herr).
    { unfold serializers.UserRegistrationSerializer_fields. rewrite Hn, Hfield. left. }
    unfold views.register_func,
      serializers.UserRegistrationSerializer_run_validation, bindM, get_world,
      lift, ret.
    cbn [users]. rewrite Hval. cbn. eauto 10.
Qed.

Lemma taken_username_is_refused_witness :
  let root := user_with_role 1 "root" "admin" in
  let w := mkWorld [root] [] [] in
  let request :=
    mkRequest "POST" "/api/users/register/" AnonymousUser (sign_up "root" "admin") in
  ∃ errors,
    @views.RegisterView plain_framework request ∅ w
    = (Ok (Response (views.errors_payload errors) HTTP_400_BAD_REQUEST), w)
    ∧ ("username", "A user with that username already exists.") ∈ errors.
Proof.
  intros root w request.
  refine (proj1 (@taken_username_is_refused plain_framework request ∅ w
                   "root" "root" root eq_refl _ eq_refl _ eq_refl)).
  - vm_compute. reflexivity.
  - cbn. left.
Defined.

(** X20.  The function endpoint refuses an e-mail address that an
    existing user has: the answer is 400, names the [email] field, and no
    user is stored. *)
Theorem taken_email_is_refused_by_register
    `{Framework} (request : Request) (kwargs : Kwargs) (w : World)
    (e c : string) (u : User) :
  method request = "POST" →
  data request !! "email" = Some e →
  EmailField_run e = Some c →
  u ∈ users w →
  email u = c →
  ∃ errors w',
    views.register request kwargs w
    = (Ok (Response (views.errors_payload errors) HTTP_400_BAD_REQUEST), w')
    ∧ ("email", "User with this email already exists.") ∈ errors
    ∧ users w' = users w ∧ objects w' = objects w.
Proof.
  intros Hm He Hrun Hin Hmail.
  rewrite (register_POST request kwargs w Hm).
  unfold views.handle_exception. rewrite log_permission_check_request.
  destruct (to_internal_value_refused
              (serializers.UserRegistrationSerializer_fields (data request) (users w))
              "email" "User with this email already exists.")
    as (errors & Hval & Herr).
  { unfold serializers.UserRegistrationSerializer_fields,
      serializers.UserRegistrationSerializer_validate_email, serializers.run_optional.
    rewrite He, Hrun. cbn [serializers.validator].
    assert (existsb (fun x => (email x =? c)%string) (users w) = true) as ->.
    { apply existsb_exists. exists u. split; [by apply list_elem_of_In |].
      by apply String.eqb_eq. }
    cbn. right. left. }
  unfold views.register_func,
    serializers.UserRegistrationSerializer_run_validation, bindM, get_world,
    lift, ret.
  cbn [users]. rewrite Hval. cbn. eauto 10.
Qed.

Lemma taken_email_is_refused_by_register_witness :
  let root := mkUser 1 "root" "root@example.org" "" "" "" "admin" in
  let w := mkWorld [root] [] [] in
  let request :=
    mkRequest "POST" "/api/users/register-alt/" AnonymousUser
      (<["email" := "root@example.org"]> (sign_up "mallory" "engineer")) in
  ∃ errors w',
    @views.register plain_framework request ∅ w
    = (Ok (Response (views.errors_payload errors) HTTP_400_BAD_REQUEST), w')
    ∧ ("email", "User with this email already exists.") ∈ errors
    ∧ users w' = users w ∧ objects w' = objects w.
Proof.
  intros root w request.
  refine (@taken_email_is_refused_by_register plain_framework request ∅ w
            "root@example.org" "root@example.org" root eq_refl _ eq_refl _ eq_refl).
  - vm_compute. reflexivity.
  - cbn. left.
Defined.

(** The class-based endpoint has no such check. *)
Example RegisterView_accepts_a_taken_email :
  let root := mkUser 1 "root" "root@example.org" "" "" "" "admin" in
  let w := mkWorld [root] [] [] in
  let request :=
    mkRequest "POST" "/api/users/register/" AnonymousUser
      (<["email" := "root@example.org"]> (sign_up "mallory" "engineer")) in
  map email (users (@views.RegisterView plain_framework request ∅ w).2)
  = ["root@example.org"; "root@example.org"].
Proof. vm_compute. reflexivity. Qed.

(** ** The role flags of a user *)

(** X21.  At most one of [is_engineer], [is_metallurgist] and
    [is_admin_role] holds for a user, and one of them holds exactly when
    the user's role is one of [ROLE_CHOICES]. *)
Theorem role_flags_are_exclusive (u : User) :
  (is_engineer u = true → is_metallurgist u = false ∧ is_admin_role u = false)
  ∧ (is_metallurgist u = true → is_engineer u = false ∧ is_admin_role u = false)
  ∧ (is_admin_role u = true → is_engineer u = false ∧ is_metallurgist u = false)
  ∧ (is_engineer u || is_metallurgist u || is_admin_role u = true ↔ role u ∈ ROLES).
Proof.
  unfold is_engineer, is_metallurgist, is_admin_role.
  rewrite elem_of_ROLES.
  repeat case_bool_decide; cbn; repeat split; try congruence; try tauto;
    intros; try discriminate; intuition congruence.
Qed.

(** ** The gates of one role agree *)

(** X22.  For an authenticated user the three admin gates are one
    decision: the decorator [admin_required] and the mixin
    [AdminOnlyMixin] reach the view exactly when [IsAdminRole] grants; the
    same holds of [metallurgist_or_admin_required],
    [MetallurgistOrAdminMixin] and [IsMetallurgistOrAdmin], and of
    [AuthenticatedUserMixin] and [IsEngineerOrAbove]. *)
Theorem gates_of_a_role_agree
    `{Framework} {Args : Type} (u : User) (m p : string) (d : gmap string string)
    (view : ViewAttrs) (view_func : decorators.FunctionView) (args : Args)
    (w : World) :
  let request := mkRequest m p (Authenticated u) d in
  let refusal roles :=
    [("error", JStr "Insufficient permissions");
     ("required_roles", JRoles roles);
     ("user_role", JStr (role u))] in
  ∃ admin privileged known : bool,
    IsAdminRole.has_permission request view = Ok admin
    ∧ IsMetallurgistOrAdmin.has_permission request view = Ok privileged
    ∧ IsEngineerOrAbove.has_permission request view = Ok known
    ∧ decorators.admin_required view_func request args w
      = (if admin then view_func request args w
         else (Ok (JsonResponse (refusal ["admin"]) 403), w))
    ∧ decorators.RoleBasedViewMixin_dispatch decorators.AdminOnlyMixin
        view_func request args w
      = (if admin then view_func request args w
         else (Ok (Response (refusal ["admin"]) HTTP_403_FORBIDDEN), w))
    ∧ decorators.metallurgist_or_admin_required view_func request args w
      = (if privileged then view_func request args w
         else (Ok (JsonResponse (refusal ["metallurgist"; "admin"]) 403), w))
    ∧ decorators.RoleBasedViewMixin_dispatch decorators.MetallurgistOrAdminMixin
        view_func request args w
      = (if privileged then view_func request args w
         else (Ok (Response (refusal ["metallurgist"; "admin"])
                     HTTP_403_FORBIDDEN), w))
    ∧ decorators.RoleBasedViewMixin_dispatch decorators.AuthenticatedUserMixin
        view_func request args w
      = (if known then view_func request args w
         else (Ok (Response (refusal ["engineer"; "metallurgist"; "admin"])
                     HTTP_403_FORBIDDEN), w)).
Proof.
  intros request refusal.
  exists (contains ["admin"] (role u)),
         (contains ["metallurgist"; "admin"] (role u)),
         (contains ["engineer"; "metallurgist"; "admin"] (role u)).
  split; [| split; [| split; [| split; [| split; [| split; [| split] ] ] ] ] ].
  - run_permission. cbn -[contains].
    by rewrite contains_cons, contains_nil, orb_false_r.
  - reflexivity.
  - reflexivity.
  - unfold decorators.admin_required.
    by rewrite (role_required_authenticated _ view_func request args u w eq_refl).
  - unfold decorators.RoleBasedViewMixin_dispatch, bindM, lift, ret.
    cbn -[contains]. by destruct (contains _ (role u)).
  - unfold decorators.metallurgist_or_admin_required.
    by rewrite (role_required_authenticated _ view_func request args u w eq_refl).
  - unfold decorators.RoleBasedViewMixin_dispatch, bindM, lift, ret.
    cbn -[contains]. by destruct (contains _ (role u)).
  - unfold decorators.RoleBasedViewMixin_dispatch, bindM, lift, ret.
    cbn -[contains]. by destruct (contains _ (role u)).
Qed.

(** ** The user list *)

(** X23.  The role filter of the user list: with a role of the closed set
    the list holds exactly the users of that role; a missing, empty or
    unrecognised role is ignored, and the list holds every user (not
    none). *)
Theorem user_list_role_filter
    (order_by : list User → list User) (queryset : list User)
    (role_param : option string) :
  (∀ l, order_by l ≡ₚ l) →
  (∀ r, role_param = Some r → r ∈ ROLES →
     ∀ u, u ∈ UserListView.get_queryset order_by queryset role_param
          ↔ u ∈ queryset ∧ role u = r)
  ∧ ((∀ r, role_param = Some r → r ∉ ROLES) →
     UserListView.get_queryset order_by queryset role_param ≡ₚ queryset).
Proof.
  intros Hperm. unfold UserListView.get_queryset. split.
  - intros r -> Hr u. rewrite (Hperm _).
    assert (contains ["engineer"; "metallurgist"; "admin"] r = true) as ->
      by (by apply contains_spec).
    rewrite bool_decide_eq_false_2; cbn.
    + rewrite list_elem_of_filter. tauto.
    + apply elem_of_ROLES in Hr as [-> | [-> | ->]]; discriminate.
  - intros Hout. rewrite (Hperm _).
    destruct role_param as [r |]; [| done].
    assert (contains ["engineer"; "metallurgist"; "admin"] r = false) as ->.
    { apply contains_false. by apply (Hout r). }
    by rewrite andb_false_r.
Qed.

Lemma user_list_role_filter_witness :
  let root := user_with_role 1 "root" "admin" in
  let eve := user_with_role 7 "eve" "engineer" in
  UserListView.get_queryset reverse [root; eve] (Some "superuser") ≡ₚ [root; eve].
Proof.
  intros root eve.
  refine (proj2 (user_list_role_filter reverse [root; eve] (Some "superuser") _) _).
  - intros l. apply reverse_Permutation.
  - intros r [= <-]. rewrite elem_of_ROLES. intros [? | [? | ?]]; discriminate.
Defined.

(** ** Documentation decorators *)

Lemma documented_responses {ResponseDoc : Type} (unauthorized forbidden : ResponseDoc)
    (given : gmap Z ResponseDoc) (status : Z) :
  (swagger_decorators.default_responses unauthorized forbidden ∪ given) !! status
  = if bool_decide (status = 401) then Some unauthorized
    else if bool_decide (status = 403) then Some forbidden
    else given !! status.
Proof.
  unfold swagger_decorators.default_responses.
  repeat case_bool_decide; subst.
  - apply lookup_union_Some_l. apply lookup_insert_eq.
  - apply lookup_union_Some_l. rewrite lookup_insert_ne by done.
    apply lookup_singleton_eq.
  - apply lookup_union_r. rewrite lookup_insert_ne by done.
    by apply lookup_singleton_ne.
Qed.

(** X24.  Each documentation decorator documents 401 and 403 with the JWT
    defaults, replacing whatever the caller documented for those two codes
    and keeping the caller's other responses, and puts the JWT header
    parameter after the caller's parameters. *)
Theorem jwt_defaults_replace_documented_responses
    {ResponseDoc ParameterDoc : Type} (jwt_header_param : ParameterDoc)
    (unauthorized forbidden : ResponseDoc)
    (kwargs : swagger_decorators.SchemaKwargs)
    (required_roles : option (list string)) :
  let given := default ∅ (swagger_decorators.responses kwargs) in
  let params := default [] (swagger_decorators.manual_parameters kwargs) in
  ∀ result,
    result ∈ [ swagger_decorators.jwt_required_operation jwt_header_param
                 unauthorized forbidden kwargs;
               swagger_decorators.admin_only_operation jwt_header_param
                 unauthorized forbidden kwargs;
               swagger_decorators.role_based_operation jwt_header_param
                 unauthorized forbidden required_roles kwargs ] →
    (∃ documented,
       swagger_decorators.responses result = Some documented
       ∧ documented !! 401 = Some unauthorized
       ∧ documented !! 403 = Some forbidden
       ∧ ∀ status, status ≠ 401 → status ≠ 403 →
           documented !! status = given !! status)
    ∧ swagger_decorators.manual_parameters result
      = Some (params ++ [jwt_header_param]).
Proof.
  intros given params result Hin.
  assert (swagger_decorators.responses result
          = Some (swagger_decorators.default_responses unauthorized forbidden ∪ given)
          ∧ swagger_decorators.manual_parameters result
            = Some (params ++ [jwt_header_param])) as [Hres Hpar].
  { rewrite !elem_of_cons, elem_of_nil in Hin.
    destruct Hin as [-> | [-> | [-> | []]]]; [done | done |].
    unfold swagger_decorators.role_based_operation.
    by destruct required_roles as [[| r rs] |]. }
  split; [| done].
  eexists. split; [exact Hres |].
  rewrite !documented_responses. cbn.
  split; [done |]. split; [done |].
  intros status H401 H403. rewrite documented_responses.
  by rewrite !bool_decide_eq_false_2.
Qed.

Lemma jwt_defaults_replace_documented_responses_witness :
  let kwargs :=
    swagger_decorators.mkSchemaKwargs None None
      (Some {[ 200 := "listed"; 401 := "custom" ]}) (Some ["page"]) in
  (∃ documented,
     swagger_decorators.responses
       (swagger_decorators.admin_only_operation "Authorization" "unauthorized"
          "forbidden" kwargs) = Some documented
     ∧ documented !! 401 = Some "unauthorized"
     ∧ documented !! 403 = Some "forbidden"
     ∧ ∀ status, status ≠ 401 → status ≠ 403 →
         documented !! status
         = ({[ 200 := "listed"; 401 := "custom" ]} : gmap Z string) !! status)
  ∧ swagger_decorators.manual_parameters
      (swagger_decorators.admin_only_operation "Authorization" "unauthorized"
         "forbidden" kwargs)
    = Some ["page"; "Authorization"].
Proof.
  intros kwargs.
  apply (jwt_defaults_replace_documented_responses "Authorization" "unauthorized"
           "forbidden" kwargs None).
  rewrite !elem_of_cons. tauto.
Defined.

(** X25.  The role decorators keep what the caller wrote: a description
    that was given is never replaced, the decorator's tag comes after the
    caller's tags, and [role_based_operation] without roles, or with an
    empty list of roles, adds neither description nor tag. *)
Theorem role_decorators_keep_the_callers_words
    {ResponseDoc ParameterDoc : Type} (jwt_header_param : ParameterDoc)
    (unauthorized forbidden : ResponseDoc)
    (kwargs : swagger_decorators.SchemaKwargs) (r : string) (rs : list string) :
  let admin_only :=
    swagger_decorators.admin_only_operation jwt_header_param unauthorized forbidden
      kwargs in
  let role_based roles :=
    swagger_decorators.role_based_operation jwt_header_param unauthorized forbidden
      roles kwargs in
  let given_tags := default [] (swagger_decorators.tags kwargs) in
  (∀ text, swagger_decorators.operation_description kwargs = Some text →
     swagger_decorators.operation_description admin_only = Some text
     ∧ swagger_decorators.operation_description (role_based (Some (r :: rs)))
       = Some text)
  ∧ swagger_decorators.tags admin_only = Some (given_tags ++ ["Admin Only"])
  ∧ swagger_decorators.tags (role_based (Some (r :: rs)))
    = Some (given_tags
            ++ ["Roles: " +:+ swagger_decorators.join_comma (r :: rs)])
  ∧ role_based None
    = swagger_decorators.jwt_required_operation jwt_header_param unauthorized
        forbidden kwargs
  ∧ role_based (Some [])
    = swagger_decorators.jwt_required_operation jwt_header_param unauthorized
        forbidden kwargs.
Proof.
  intros admin_only role_based given_tags.
  split; [| repeat split].
  intros text Htext. subst admin_only role_based. cbn.
  by rewrite Htext.
Qed.

Example roles_are_joined_with_commas :
  swagger_decorators.join_comma ["metallurgist"; "admin"] = "metallurgist, admin".
Proof. reflexivity. Qed.
